(** * The Brain Observatory notebook, embedded and verified

    [src/brain_observatory.ipynb] is a tutorial notebook: a straight-line
    script that queries the AllenSDK [BrainObservatoryCache], filters the
    cell-specimen table with pandas, accumulates two small numpy arrays and
    plots.  This file embeds the code cells of the notebook and proves the
    properties stated about them.

    Conventions.
    - Python [int] is [Z]; [len] is a [nat]; numpy [float64] and the pandas
      float columns are IEEE binary64 ([PrimFloat.float]), so comparisons
      with NaN are false exactly as in numpy.
    - A Python exception is a value of [exn]; fallible code lives in
      [result].
    - The AllenSDK itself is not part of the repository.  Its answers are
      inputs: records with the fields the notebook reads, handed over by a
      handler of the [query] events (part III). *)

From Stdlib Require Import ZArith Lia Floats.PrimFloat Eqdep_dec.
From Stdlib Require Import Floats.SpecFloat Floats.FloatOps Floats.FloatAxioms.
From stdpp Require Import base option list strings gmap sorting.

Set Warnings "-inexact-float,-clear-no-such-hyp".
Local Open Scope string_scope.
Local Open Scope list_scope.
Local Open Scope nat_scope.

(** * Part I: the Python, numpy and pandas operations the notebook uses *)

(** ** Exceptions *)

(** The exceptions reachable from the notebook's own statements.  The payload
    of [IndexError] tells the three subscript forms apart, as the Python
    messages do. *)
Inductive index_failure : Set :=
| EmptySequence      (* [l[0]], [df.iloc[0]], [a[0]] on an empty sequence *)
| OutOfBounds        (* [a[i, j]] with an index outside the axis *)
| BoolIndexMismatch. (* [a[mask]] with [mask.shape != a.shape] *)

Inductive exn : Set :=
| IndexError (why : index_failure)
| ValueError.        (* numpy broadcasting, reduction of an empty array,
                        [plt.plot] with sequences of different lengths *)

Inductive result (A : Type) : Type :=
| Ok (a : A)
| Raised (e : exn).
Arguments Ok {A} a.
Arguments Raised {A} e.

(** [result] is a monad; stdpp's [x ← r; k] is the sequencing of fallible
    statements. *)
#[global] Instance result_ret : MRet result := fun _ a => Ok a.
#[global] Instance result_bind : MBind result := fun _ _ f r =>
  match r with
  | Ok a => f a
  | Raised e => Raised e
  end.
#[global] Instance result_fmap : FMap result := fun _ _ f r =>
  match r with
  | Ok a => Ok (f a)
  | Raised e => Raised e
  end.

#[global] Instance index_failure_eq_dec : EqDecision index_failure.
Proof. solve_decision. Defined.
#[global] Instance exn_eq_dec : EqDecision exn.
Proof. solve_decision. Defined.

(** ** Lists: subscripts and slices *)

Module Py.

(** [l[0]] (also [df.iloc[0]] and [a[0]] on the first axis). *)
Definition first {A} (l : list A) : result A :=
match l with
| [] => Raised (IndexError EmptySequence)
| x :: _ => Ok x
end.

(** The end point of a slice [l[:stop]] on a sequence of length [n]: a
  negative [stop] counts from the end, and both cases are clipped to
  [0 .. n]. *)
Definition slice_stop (n : nat) (stop : Z) : nat :=
if (stop <? 0)%Z then Z.to_nat (Z.max 0 (Z.of_nat n + stop))
else Nat.min (Z.to_nat stop) n.

(** [l[:stop]] *)
Definition slice_to {A} (l : list A) (stop : Z) : list A :=
take (slice_stop (length l) stop) l.

(** [len(l)] as the Python integer a slice receives. *)
Definition len {A} (l : list A) : Z := Z.of_nat (length l).

(** The elements at positions [0, step, 2*step, ...] of [l]. *)
Fixpoint strided_from {A} (skip step : nat) (l : list A) : list A :=
match l with
| [] => []
| x :: l' =>
    match skip with
    | 0 => x :: strided_from (step - 1) step l'
    | S k => strided_from k step l'
    end
end.

(** [l[:stop:step]] for a positive [step]. *)
Definition slice_to_step {A} (l : list A) (stop : Z) (step : nat) : list A :=
strided_from 0 step (slice_to l stop).

(** [l[1:]] *)
Definition slice_from1 {A} (l : list A) : list A := drop 1 l.

(** [l[:-2]] is [slice_to l (-2)]. *)

(** [l[i]] for a Python integer [i]: [-n .. -1] count from the end, anything
  outside [-n .. n-1] is an [IndexError]. *)
Definition getitem {A} (l : list A) (i : Z) : result A :=
let n := Z.of_nat (length l) in
let k := if (i <? 0)%Z then (n + i)%Z else i in
if decide (0 ≤ k < n)%Z then
  match l !! Z.to_nat k with
  | Some x => Ok x
  | None => Raised (IndexError OutOfBounds)
  end
else Raised (IndexError OutOfBounds).

End Py.

(** ** numpy: arrays of rank 1 and 2 *)

Module Np.

(** A rank-1 array is a list.  Binary operators broadcast: equal lengths go
  elementwise, a length-1 operand is stretched, anything else is a
  [ValueError] ("operands could not be broadcast together"). *)
Definition broadcast2 {A B C} (f : A → B → C) (a : list A) (b : list B)
  : result (list C) :=
if decide (length a = length b) then Ok (zip_with f a b)
else match a, b with
     | [x], _ => Ok (f x <$> b)
     | _, [y] => Ok ((λ x, f x y) <$> a)
     | _, _ => Raised ValueError
     end.

(** [r * a] for a scalar [r]. *)
Definition scalar_mul (r : float) (a : list float) : list float :=
PrimFloat.mul r <$> a.

(** [a - b] *)
Definition sub (a b : list float) : result (list float) :=
broadcast2 PrimFloat.sub a b.

(** A rank-2 array: its shape and its rows.  numpy keeps the two
  consistent; [wf] says so for an array received from outside. *)
Record ndarray (A : Type) : Type := mk_ndarray {
shape : nat * nat;
rows : list (list A)
}.
Arguments mk_ndarray {A} shape rows.
Arguments shape {A} _.
Arguments rows {A} _.

Definition wf {A} (a : ndarray A) : Prop :=
length (rows a) = (shape a).1
∧ Forall (λ r, length r = (shape a).2) (rows a).

(** [a[i, j]] for in-range natural indices. *)
Definition get {A} (a : ndarray A) (i j : nat) : option A :=
rows a !! i ≫= (.!! j).

(** [np.zeros(shape)] for a shape of naturals: [zero] is the element [0.0]
  of the array's dtype. *)
Definition zeros {A} (zero : A) (sh : nat * nat) : ndarray A :=
mk_ndarray sh (replicate sh.1 (replicate sh.2 zero)).

(** [np.zeros((n, m))] for Python integers: a negative dimension is a
  [ValueError] ("negative dimensions are not allowed"). *)
Definition zeros_Z {A} (zero : A) (n m : Z) : result (ndarray A) :=
if decide (0 ≤ n ∧ 0 ≤ m)%Z then Ok (zeros zero (Z.to_nat n, Z.to_nat m))
else Raised ValueError.

(** [a > c], elementwise. *)
Definition gt_scalar (a : ndarray Z) (c : Z) : ndarray bool :=
mk_ndarray (shape a)
  ((λ r : list Z, (λ x, bool_decide (c < x)%Z) <$> r) <$> rows a).

(** [a[mask] = v]: boolean-mask assignment.  The mask must have the shape
  of the array ("boolean index did not match indexed array"). *)
Definition setitem_mask {A} (a : ndarray A) (mask : ndarray bool) (v : A)
  : result (ndarray A) :=
if decide (shape mask = shape a) then
  Ok (mk_ndarray (shape a)
        (zip_with (zip_with (λ x (b : bool), if b then v else x))
                  (rows a) (rows mask)))
else Raised (IndexError BoolIndexMismatch).

(** An integer subscript on an axis of size [n]: [-n .. -1] count from the
  end, anything outside [-n .. n-1] is an [IndexError]. *)
Definition axis_index (n : nat) (i : Z) : result nat :=
if decide (0 ≤ i < Z.of_nat n)%Z then Ok (Z.to_nat i)
else if decide (- Z.of_nat n ≤ i < 0)%Z then Ok (Z.to_nat (Z.of_nat n + i))
else Raised (IndexError OutOfBounds).

(** [a[i, j] += d] *)
Definition iadd_at (a : ndarray Z) (i j : Z) (d : Z) : result (ndarray Z) :=
i' ← axis_index (shape a).1 i;
j' ← axis_index (shape a).2 j;
Ok (mk_ndarray (shape a) (alter (alter (Z.add d) j') i' (rows a))).

Definition sum_list (l : list Z) : Z := foldr Z.add 0%Z l.

(** [a.sum()] *)
Definition sum (a : ndarray Z) : Z := sum_list (sum_list <$> rows a).

(** [a.max()]: the reduction of an array with no element is a
  [ValueError] ("zero-size array to reduction operation maximum"). *)
Definition amax (a : ndarray Z) : result Z :=
match concat (rows a) with
| [] => Raised ValueError
| x :: l => Ok (foldr Z.max x l)
end.

(** No entry of the array is negative. *)
Definition nonnegative (a : ndarray Z) : Prop :=
Forall (Forall (λ v, 0 ≤ v)%Z) (rows a).

End Np.

(** ** pandas: frames, columns and boolean selection *)

Module Pd.

(** A [Series] is a list of values, each under its index label; a
  [DataFrame] is a list of rows (records of type [R]), each under its
  index label.  Order is the order of the rows. *)
Definition Series (A : Type) : Type := list (Z * A).
Definition DataFrame (R : Type) : Type := list (Z * R).

(** [pd.DataFrame.from_records(l)]: the rows of [l] under the labels
  [0, 1, 2, ...]. *)
Definition from_records {R} (l : list R) : DataFrame R :=
imap (λ i r, (Z.of_nat i, r)) l.

(** [df[name]]: the column read by the field accessor [f]. *)
Definition column {R A} (f : R → A) (df : DataFrame R) : Series A :=
prod_map id f <$> df.

(** An elementwise operation on a series, label by label. *)
Definition elementwise {A B} (f : A → B) (s : Series A) : Series B :=
prod_map id f <$> s.

(** [s.isin(values)] *)
Definition isin (s : Series Z) (values : list Z) : Series bool :=
elementwise (λ x, bool_decide (x ∈ values)) s.

(** [s < c], [s > c], [s <= c]: IEEE comparisons, false on NaN. *)
Definition lt (s : Series float) (c : float) : Series bool :=
elementwise (λ x, PrimFloat.ltb x c) s.
Definition gt (s : Series float) (c : float) : Series bool :=
elementwise (λ x, PrimFloat.ltb c x) s.
Definition le (s : Series float) (c : float) : Series bool :=
elementwise (λ x, PrimFloat.leb x c) s.

(** [a & b] on two boolean series over the same index (in the notebook both
  operands are always computed from one frame). *)
Definition and (a b : Series bool) : Series bool :=
zip_with (λ x y, (x.1, x.2 && y.2)) a b.

(** [df[mask]]: the rows whose mask entry is [True].  The mask is a series
  computed from [df] itself, so it has one entry per row, in order. *)
Definition getitem_mask {R} (df : DataFrame R) (mask : Series bool)
  : DataFrame R :=
fst <$> List.filter (λ p, (p.2).2) (zip df mask).

(** [s.unique()]: the distinct values in order of first appearance. *)
Fixpoint unique_from (seen : gset Z) (l : list Z) : list Z :=
match l with
| [] => []
| x :: l' =>
    if decide (x ∈ seen) then unique_from seen l'
    else x :: unique_from ({[x]} ∪ seen) l'
end.
Definition unique (s : Series Z) : list Z := unique_from ∅ (snd <$> s).


(** [df.iterrows()] yields the [(label, row)] pairs in order: the frame
  itself. *)
Definition iterrows {R} (df : DataFrame R) : list (Z * R) := df.

End Pd.
(** * Part II: the records of the SDK and the notebook's own computations *)

(** ** Records returned by the SDK

    The SDK hands out Python dicts; the notebook reads them by fixed keys.
    Each kind of dict is a record with the fields the notebook or its
    documentation names. *)

Module Container.
(** An experiment container, as printed by cell 7. *)
Record t : Type := mk {
  id : Z;
  targeted_structure : string;
  imaging_depth : Z;
  cre_line : string;
  age_days : float
}.
End Container.

Module Experiment.
(** An ophys experiment: its id, the container it belongs to and the
    session type (cells 9 to 11). *)
Record t : Type := mk {
  id : Z;
  experiment_container_id : Z;
  session_type : string
}.
End Experiment.

Module CellSpecimen.
(** A cell-specimen record: the columns cell 15 to cell 21 read.  The
    other tuning metrics of the table in the notebook are carried along by
    pandas and never read. *)
Record t : Type := mk {
  cell_specimen_id : Z;
  experiment_container_id : Z;
  p_dg : float;
  dsi_dg : float
}.
End CellSpecimen.

Module Peak.
(** A row of [dg.peak], the table [DriftingGratings] computes. *)
Record t : Type := mk {
  ptest_dg : float;
  peak_dff_dg : float;
  osi_dg : float;
  dsi_dg : float;
  ori_dg : Z;
  tf_dg : Z
}.
End Peak.

(** The [DriftingGratings] analysis object: the attributes cell 27 reads. *)
Record DriftingGratings : Type := mk_dg {
  peak : Pd.DataFrame Peak.t;
  orivals : list Z;
  tfvals : list Z
}.

(** An ROI mask object and its decoded mask plane. *)
Record RoiMask : Type := mk_roi_mask {
  get_mask_plane : Np.ndarray Z
}.

(** A Python [for] loop whose body may raise: the loop state is threaded
    through the iterations, and the first exception ends the loop. *)
Fixpoint for_each {A S} (body : S → A → result S) (l : list A) (s : S)
    : result S :=
  match l with
  | [] => Ok s
  | x :: l' => s' ← body s x; for_each body l' s'
  end.

(** ** Cell 15: the filters on the cell-specimen table *)

Module Cell15.

(** The frames bound by the cell. *)
Record t : Type := mk {
  cells : Pd.DataFrame CellSpecimen.t;
  visp_ec_ids : list Z;
  visp_cells : Pd.DataFrame CellSpecimen.t;
  sig_cells : Pd.DataFrame CellSpecimen.t;
  dsi_cells : Pd.DataFrame CellSpecimen.t
}.

(** [cell_specimens] is the answer of [boc.get_cell_specimens()] and
    [visp_ecs] the VISp containers of cell 3. *)
Definition run (cell_specimens : list CellSpecimen.t)
    (visp_ecs : list Container.t) : t :=
  let cells := Pd.from_records cell_specimens in
  let visp_ec_ids := Container.id <$> visp_ecs in
  let visp_cells :=
    Pd.getitem_mask cells
      (Pd.isin (Pd.column CellSpecimen.experiment_container_id cells)
               visp_ec_ids) in
  let sig_cells :=
    Pd.getitem_mask visp_cells
      (Pd.lt (Pd.column CellSpecimen.p_dg visp_cells) 0.05%float) in
  let dsi_cells :=
    Pd.getitem_mask sig_cells
      (Pd.and (Pd.gt (Pd.column CellSpecimen.dsi_dg sig_cells) 0.5%float)
              (Pd.lt (Pd.column CellSpecimen.dsi_dg sig_cells) 1.5%float)) in
  mk cells visp_ec_ids visp_cells sig_cells dsi_cells.

End Cell15.

(** ** Cell 17: the containers of the direction-selective cells *)

(** [dsi_cells['experiment_container_id'].unique()] *)
Definition dsi_ec_ids (dsi_cells : Pd.DataFrame CellSpecimen.t) : list Z :=
  Pd.unique (Pd.column CellSpecimen.experiment_container_id dsi_cells).

(** ** Cell 24: the mask of all ROIs *)

Module Cell24.

(** [sum_mask[roi_mask.get_mask_plane()>0] = 1] *)
Definition body (sum_mask : Np.ndarray float) (roi_mask : RoiMask)
    : result (Np.ndarray float) :=
  Np.setitem_mask sum_mask (Np.gt_scalar (get_mask_plane roi_mask) 0)
                  1%float.

(** [sum_mask = np.zeros(data_set.MOVIE_FOV_PX)] and the loop over
    [all_roi_masks]. *)
Definition sum_mask (MOVIE_FOV_PX : nat * nat)
    (all_roi_masks : list RoiMask) : result (Np.ndarray float) :=
  for_each body all_roi_masks (Np.zeros 0%float MOVIE_FOV_PX).

(** Every mask plane is an array of the shape of the field of view. *)
Definition planes_fit (MOVIE_FOV_PX : nat * nat)
    (all_roi_masks : list RoiMask) : Prop :=
  Forall (λ m, Np.wf (get_mask_plane m)
               ∧ Np.shape (get_mask_plane m) = MOVIE_FOV_PX) all_roi_masks.

(** Whether the mask plane of [roi_mask] is strictly positive at pixel
    [(i, j)]: the test the statement about [sum_mask] is phrased with. *)
Definition positive_at (i j : nat) (roi_mask : RoiMask) : bool :=
  match Np.get (get_mask_plane roi_mask) i j with
  | Some v => bool_decide (0 < v)%Z
  | None => false
  end.

End Cell24.

(** ** Cell 27: the orientation / temporal-frequency histograms *)

Module Cell27.

(** The boolean series selecting the responsive and selective cells. *)
Definition vis_cells (dg : DriftingGratings) : Pd.Series bool :=
  Pd.and (Pd.lt (Pd.column Peak.ptest_dg (peak dg)) 0.05%float)
         (Pd.gt (Pd.column Peak.peak_dff_dg (peak dg)) 3%float).
Definition osi_cells (dg : DriftingGratings) : Pd.Series bool :=
  Pd.and (Pd.and (vis_cells dg)
                 (Pd.gt (Pd.column Peak.osi_dg (peak dg)) 0.5%float))
         (Pd.le (Pd.column Peak.osi_dg (peak dg)) 1.5%float).
Definition dsi_cells (dg : DriftingGratings) : Pd.Series bool :=
  Pd.and (Pd.and (vis_cells dg)
                 (Pd.gt (Pd.column Peak.dsi_dg (peak dg)) 0.5%float))
         (Pd.le (Pd.column Peak.dsi_dg (peak dg)) 1.5%float).

(** [np.zeros((len(dg.orivals), len(dg.tfvals)-1))].  The bins are
    float64 in numpy; they only ever hold counts, which float64 represents
    exactly below 2^53, so a bin is an integer here. *)
Definition empty_hist (dg : DriftingGratings) : result (Np.ndarray Z) :=
  Np.zeros_Z 0%Z (Py.len (orivals dg)) (Py.len (tfvals dg) - 1).

(** [hist[trial.ori_dg, trial.tf_dg-1] += 1] *)
Definition body (hist : Np.ndarray Z) (row : Z * Peak.t)
    : result (Np.ndarray Z) :=
  let trial := row.2 in
  Np.iadd_at hist (Peak.ori_dg trial) (Peak.tf_dg trial - 1) 1.

(** [for i, trial in dg.peak[selected].iterrows(): ...] *)
Definition fill (dg : DriftingGratings) (selected : Pd.Series bool)
    (hist : Np.ndarray Z) : result (Np.ndarray Z) :=
  for_each body (Pd.iterrows (Pd.getitem_mask (peak dg) selected)) hist.

(** The arrays [os] and [ds] after the two loops, in statement order. *)
Definition histograms (dg : DriftingGratings)
    : result (Np.ndarray Z * Np.ndarray Z) :=
  os ← empty_hist dg;
  ds ← empty_hist dg;
  os ← fill dg (osi_cells dg) os;
  ds ← fill dg (dsi_cells dg) ds;
  Ok (os, ds).

(** Whether a row of [dg.peak] belongs to the bin [(i, j)] of a histogram:
    preferred orientation index [i] and temporal-frequency index [j + 1]
    (index 0, the blank sweep, has no bin). *)
Definition in_bin (i j : nat) (x : Z * Peak.t) : bool :=
  bool_decide (Peak.ori_dg x.2 = Z.of_nat i
               ∧ Peak.tf_dg x.2 = (Z.of_nat j + 1)%Z).

(** The rows a histogram may count: indices inside [dg.orivals] and
    inside [dg.tfvals] without the blank sweep. *)
Definition in_range (dg : DriftingGratings) (x : Z * Peak.t) : Prop :=
  (0 ≤ Peak.ori_dg x.2 < Py.len (orivals dg))%Z
  ∧ (1 ≤ Peak.tf_dg x.2 < Py.len (tfvals dg))%Z.

(** [max_count = max(os.max(), ds.max())] *)
Definition max_count (os ds : Np.ndarray Z) : result Z :=
  a ← Np.amax os;
  b ← Np.amax ds;
  Ok (Z.max a b).

(** The rows numpy lets a loop count: each of the two indices
    [trial.ori_dg] and [trial.tf_dg-1] is inside its axis, or negative and
    no further from the end than the axis is long. *)
Definition addressable (dg : DriftingGratings) (x : Z * Peak.t) : Prop :=
  (- Py.len (orivals dg) ≤ Peak.ori_dg x.2 < Py.len (orivals dg))%Z
  ∧ (- (Py.len (tfvals dg) - 1) ≤ Peak.tf_dg x.2 - 1
       < Py.len (tfvals dg) - 1)%Z.

End Cell27.

(** ** Cell 29: the neuropil subtraction written out by hand *)

Module Cell29.

(** [correction = raw_traces[0] - results['r'] * neuropil_traces[0]],
    given the two first traces and the estimated ratio [r]. *)
Definition correction (raw0 neuropil0 : list float) (r : float)
    : result (list float) :=
  Np.sub raw0 (Np.scalar_mul r neuropil0).

End Cell29.
(** * Part III: the notebook as a program over the SDK *)

(** ** The SDK interface the notebook uses

    Every method of [boc], of a data set and of the analysis modules that a
    cell calls is a [call]; its answer has the type [answer_of] of its
    answer kind.  The notebook never sees more of the SDK than these
    answers. *)

(** The wrapper returned by [boc.get_ophys_experiment_data]: the NWB file it
    stands for and the class attribute [MOVIE_FOV_PX]. *)
Record DataSet : Type := mk_data_set {
  nwb_file : Z;
  MOVIE_FOV_PX : nat * nat
}.

(** [estimate_contamination_ratios] returns a dict with the keys ['r'] and
    ['err']. *)
Module Contamination.
Record t : Type := mk {
  r : float;
  err : float
}.
End Contamination.

(** [data_set.get_motion_correction()]: a table with these columns. *)
Module Motion.
Record t : Type := mk {
  timestamp : list float;
  x_motion : list float;
  y_motion : list float
}.
End Motion.

(** The kinds of answers. *)
Inductive kind : Set :=
| KStrings | KInts | KContainers | KExperiments | KCellSpecimens
| KDataSet | KMetadata | KTraces | KRoiMasks | KImage | KSeriesPair
| KMotion | KDriftingGratings | KContamination | KMatrix.

#[global] Instance kind_eq_dec : EqDecision kind.
Proof. solve_decision. Defined.

Definition answer_of (t : kind) : Type :=
  match t with
  | KStrings => list string
  | KInts => list Z
  | KContainers => list Container.t
  | KExperiments => list Experiment.t
  | KCellSpecimens => list CellSpecimen.t
  | KDataSet => DataSet
  | KMetadata => list (string * string)
  | KTraces => list float * list (list float)   (* time stamps, one trace per cell *)
  | KRoiMasks => list RoiMask
  | KImage => Np.ndarray Z
  | KSeriesPair => list float * list float
  | KMotion => Motion.t
  | KDriftingGratings => DriftingGratings
  | KContamination => Contamination.t
  | KMatrix => list (list float)
  end.

(** A keyword argument that may be left out is an [option]. *)
Inductive call : kind → Type :=
(* methods of [boc], the [BrainObservatoryCache] *)
| get_all_targeted_structures : call KStrings
| get_experiment_containers
    (targeted_structures cre_lines : option (list string)) : call KContainers
| get_all_imaging_depths : call KInts
| get_all_stimuli : call KStrings
| get_all_cre_lines : call KStrings
| get_ophys_experiments
    (experiment_container_ids : list Z) (stimuli : option (list string))
    : call KExperiments
| get_ophys_experiment_data (ophys_experiment_id : Z) : call KDataSet
| get_cell_specimens : call KCellSpecimens
(* methods of a data set *)
| get_metadata (data_set : DataSet) : call KMetadata
| list_stimuli (data_set : DataSet) : call KStrings
| get_fluorescence_traces (data_set : DataSet) (cell_specimen_ids : list Z)
    : call KTraces
| get_neuropil_traces (data_set : DataSet) (cell_specimen_ids : list Z)
    : call KTraces
| get_corrected_fluorescence_traces
    (data_set : DataSet) (cell_specimen_ids : list Z) : call KTraces
| get_dff_traces (data_set : DataSet) (cell_specimen_ids : list Z)
    : call KTraces
| get_cell_specimen_ids (data_set : DataSet) : call KInts
| get_roi_mask (data_set : DataSet) (cell_specimen_ids : option (list Z))
    : call KRoiMasks
| get_max_projection (data_set : DataSet) : call KImage
| get_running_speed (data_set : DataSet) : call KSeriesPair
| get_motion_correction (data_set : DataSet) : call KMotion
(* the analysis modules *)
| drifting_gratings (data_set : DataSet) : call KDriftingGratings
| estimate_contamination_ratios (F_M F_N : list float) : call KContamination
| compute_dff (traces : list (list float)) : call KMatrix.

(** [stim_info.STATIC_GRATINGS] and [stim_info.DRIFTING_GRATINGS], as cell 5
    prints them. *)
Definition STATIC_GRATINGS : string := "static_gratings".
Definition DRIFTING_GRATINGS : string := "drifting_gratings".

(** ** What a run shows: printed text and plotted data *)

(** A value handed to [print] or [pprint]. *)
Inductive pyval : Type :=
| VInt (z : Z)
| VFloat (x : float)
| VStrings (l : list string)
| VInts (l : list Z)
| VContainer (c : Container.t)
| VExperiment (e : Experiment.t)
| VExperiments (l : list Experiment.t)
| VMetadata (m : list (string * string)).

(** An image handed to [imshow]. *)
Inductive image : Type :=
| ImInt (a : Np.ndarray Z)
| ImFloat (a : Np.ndarray float).

(** The statements with a visible effect.  [Print fmt args] is
    [print(fmt % args)] (or [print(fmt + str(arg))]); the text itself is not
    rendered.  Axes are numbered by their position in the figure. *)
Inductive output : Type :=
| Print (fmt : string) (args : list pyval)
| Pprint (v : pyval)
| Figure
| Title (s : string)
| Plot (x y : list float)
| Legend (labels : list string)
| Show
| Subplots (ncols : nat)
| Imshow (ax : nat) (img : image) (clim : option (Z * Z))
| SetTitle (ax : nat) (fmt : string) (args : list pyval)
| SetLabels (ax : nat) (xlabel ylabel : string)
| SetTickLabels (ax : nat) (xlabels ylabels : list Z)
| Colorbar (max_count : Z).

(** ** Programs *)

(** A cell is a program: it returns, raises, calls the SDK and goes on with
    the answer, shows something, or takes the first element of a sequence
    ([l[0]], [df.iloc[0]]), which raises [IndexError] on an empty one.
    There is no handler construct: the notebook has no [try]. *)
Inductive prog (A : Type) : Type :=
| Ret (a : A)
| Raise (e : exn)
| Call {t : kind} (c : call t) (k : answer_of t → prog A)
| Emit (o : output) (k : prog A)
| First {X : Type} (l : list X) (k : X → prog A).
Arguments Ret {A} a.
Arguments Raise {A} e.
Arguments Call {A t} c k.
Arguments Emit {A} o k.
Arguments First {A X} l k.

Fixpoint bind {A B} (p : prog A) (f : A → prog B) : prog B :=
  match p with
  | Ret a => f a
  | Raise e => Raise e
  | Call c k => Call c (λ x, bind (k x) f)
  | Emit o k => Emit o (bind k f)
  | First l k => First l (λ x, bind (k x) f)
  end.

#[global] Instance prog_ret : MRet prog := @Ret.
#[global] Instance prog_bind : MBind prog := λ A B f p, bind p f.

(** The primitive statements. *)
Definition call_sdk {t} (c : call t) : prog (answer_of t) := Call c Ret.
Definition emit (o : output) : prog unit := Emit o (Ret tt).
Definition first {X} (l : list X) : prog X := First l Ret.

(** A fallible computation of the notebook's own, run in place. *)
Definition lift {A} (x : result A) : prog A :=
  match x with
  | Ok a => Ret a
  | Raised e => Raise e
  end.

(** [plt.plot(x, y)]: matplotlib refuses sequences of different lengths
    ("x and y must have same first dimension"). *)
Definition plot (x y : list float) : prog unit :=
  if decide (length x = length y) then emit (Plot x y) else Raise ValueError.

(** A [for] loop whose body only shows things. *)
Fixpoint for_ {X} (l : list X) (body : X → prog unit) : prog unit :=
  match l with
  | [] => Ret tt
  | x :: l' => bind (body x) (λ _, for_ l' body)
  end.

(** ** Runs *)

(** What happens during a run, in program order: a call with the answer it
    received, something shown, a first-element access with the length of the
    sequence it was applied to. *)
Inductive event : Type :=
| EvCall {t : kind} (c : call t) (x : answer_of t)
| EvOut (o : output)
| EvFirst (n : nat).

(** The SDK seen from the notebook: a state machine that answers calls. *)
Definition handler (S : Type) : Type := ∀ t, call t → S → answer_of t * S.

Record run_of (S A : Type) : Type := mk_run {
  trace : list event;
  outcome : result A;
  final : S
}.
Arguments mk_run {S A} trace outcome final.
Arguments trace {S A} _.
Arguments outcome {S A} _.
Arguments final {S A} _.

Definition log {S A} (e : event) (r : run_of S A) : run_of S A :=
  mk_run (e :: trace r) (outcome r) (final r).

Fixpoint run {S A} (h : handler S) (s : S) (p : prog A) : run_of S A :=
  match p with
  | Ret a => mk_run [] (Ok a) s
  | Raise e => mk_run [] (Raised e) s
  | Call c k =>
      let '(x, s') := h _ c s in
      log (EvCall c x) (run h s' (k x))
  | Emit o k => log (EvOut o) (run h s k)
  | First l k =>
      log (EvFirst (length l))
        match l with
        | [] => mk_run [] (Raised (IndexError EmptySequence)) s
        | x :: _ => run h s (k x)
        end
  end.

Definition first_accesses (tr : list event) : list nat :=
  omap (λ e, match e with EvFirst n => Some n | _ => None end) tr.


(** [wp p Q]: whatever the SDK answers, the outcome and the trace of a run
    of [p] satisfy [Q]. *)
Fixpoint wp {A} (p : prog A) (Q : result A → list event → Prop) : Prop :=
  match p with
  | Ret a => Q (Ok a) []
  | Raise e => Q (Raised e) []
  | Call c k => ∀ x, wp (k x) (λ r tr, Q r (EvCall c x :: tr))
  | Emit o k => wp k (λ r tr, Q r (EvOut o :: tr))
  | First l k =>
      match l with
      | [] => Q (Raised (IndexError EmptySequence)) [EvFirst 0]
      | x :: _ => wp (k x) (λ r tr, Q r (EvFirst (length l) :: tr))
      end
  end.

(** A property of the runs that reach the end. *)
Definition on_ok {A} (Q : A → list event → Prop)
    : result A → list event → Prop :=
  λ r tr, match r with Ok a => Q a tr | Raised _ => True end.

(** A non-empty query result: a list with an element; for the trace
    queries, at least one trace. *)
Definition nonempty_answer (t : kind) : answer_of t → Prop :=
  match t with
  | KStrings | KInts | KContainers | KExperiments | KCellSpecimens
  | KMetadata | KRoiMasks | KMatrix => λ x, x ≠ []
  | KTraces => λ x, x.2 ≠ []
  | _ => λ _, True
  end.
Definition nonempty_event (e : event) : Prop :=
  match e with
  | @EvCall t _ x => nonempty_answer t x
  | _ => True
  end.




(** ** The cells

    One definition per code cell, in the order of the notebook.  A cell
    takes the variables it reads from earlier cells and returns the ones
    later cells read. *)

Module Notebook.

(** Cell 2.  [boc = BrainObservatoryCache(manifest_file=...)] builds the
    client every later call goes to: it is the handler of a run. *)
Definition cell_2 : prog unit :=
  targeted_structures ← call_sdk get_all_targeted_structures;
  emit (Print "all targeted structures: " [VStrings targeted_structures]).

Definition cell_3 : prog (list Container.t) :=
  visp_ecs ← call_sdk (get_experiment_containers (Some ["VISp"]) None);
  emit (Print "all VISp experiment containers: %d" [VInt (Py.len visp_ecs)]);;
  mret visp_ecs.

Definition cell_4 : prog unit :=
  depths ← call_sdk get_all_imaging_depths;
  emit (Print "all imaging depths: " [VInts depths]).

Definition cell_5 : prog unit :=
  stims ← call_sdk get_all_stimuli;
  emit (Print "all stimuli:\n" []);;
  emit (Pprint (VStrings stims)).

Definition cell_6 : prog unit :=
  cre_lines ← call_sdk get_all_cre_lines;
  emit (Print "all cre lines: " [VStrings cre_lines]).

Definition cell_7 : prog (list Container.t) :=
  cux2_ecs ← call_sdk (get_experiment_containers None (Some ["Cux2-CreERT2"]));
  emit (Print "Cux2 experiments: %d\n" [VInt (Py.len cux2_ecs)]);;
  emit (Print "Example experiment container record:" []);;
  ec ← first cux2_ecs;
  emit (Pprint (VContainer ec));;
  mret cux2_ecs.

Definition cell_9 (cux2_ecs : list Container.t) : prog unit :=
  ec ← first cux2_ecs;
  let cux2_ec_id := Container.id ec in
  exps ← call_sdk (get_ophys_experiments [cux2_ec_id] None);
  emit (Print "Experiments for experiment_container_id %d: %d\n"
              [VInt cux2_ec_id; VInt (Py.len exps)]);;
  emit (Pprint (VExperiments exps)).

Definition cell_11 (cux2_ecs : list Container.t) : prog Experiment.t :=
  ec ← first cux2_ecs;
  let cux2_ec_id := Container.id ec in
  found ← call_sdk (get_ophys_experiments [cux2_ec_id]
                                          (Some [STATIC_GRATINGS]));
  exp ← first found;
  emit (Print "Experiment with static gratings:" []);;
  emit (Pprint (VExperiment exp));;
  mret exp.

Definition cell_13 (exp : Experiment.t) : prog DataSet :=
  exp ← call_sdk (get_ophys_experiment_data (Experiment.id exp));
  metadata ← call_sdk (get_metadata exp);
  emit (Pprint (VMetadata metadata));;
  mret exp.

Definition cell_15 (visp_ecs : list Container.t) : prog Cell15.t :=
  cells ← call_sdk get_cell_specimens;
  let o := Cell15.run cells visp_ecs in
  emit (Print "total cells: %d" [VInt (Py.len (Cell15.cells o))]);;
  emit (Print "VISp cells: %d" [VInt (Py.len (Cell15.visp_cells o))]);;
  emit (Print "cells with sig. response to drifting gratings: %d"
              [VInt (Py.len (Cell15.sig_cells o))]);;
  emit (Print "direction-selective cells: %d"
              [VInt (Py.len (Cell15.dsi_cells o))]);;
  mret o.

Definition cell_17 (dsi_cells : Pd.DataFrame CellSpecimen.t) : prog unit :=
  let dsi_ec_ids := dsi_ec_ids dsi_cells in
  emit (Print "total dsi experiment containers: %d"
              [VInt (Py.len dsi_ec_ids)]);;
  dsi_exps ← call_sdk (get_ophys_experiments dsi_ec_ids
                                             (Some [DRIFTING_GRATINGS]));
  emit (Print "VISp drifting gratings ophys experiments: %d"
              [VInt (Py.len dsi_exps)]);;
  emit (Print "Example ophys experiment:" []);;
  e ← first dsi_exps;
  emit (Pprint (VExperiment e)).

Definition cell_19 (dsi_cells : Pd.DataFrame CellSpecimen.t)
    : prog (CellSpecimen.t * DataSet) :=
  row ← first dsi_cells;
  let dsi_cell := row.2 in
  found ← call_sdk
    (get_ophys_experiments [CellSpecimen.experiment_container_id dsi_cell]
                           (Some [DRIFTING_GRATINGS]));
  cell_exp ← first found;
  data_set ← call_sdk (get_ophys_experiment_data (Experiment.id cell_exp));
  emit (Print "Metadata from NWB file:" []);;
  metadata ← call_sdk (get_metadata data_set);
  emit (Pprint (VMetadata metadata));;
  emit (Print "stimuli available in this file:" []);;
  stimuli ← call_sdk (list_stimuli data_set);
  emit (Print "" [VStrings stimuli]);;
  mret (dsi_cell, data_set).

(** The traces of the chosen cell: [time], [raw_traces],
    [corrected_traces], [dff_traces] (the neuropil traces are fetched and
    not used). *)
Definition cell_21 (dsi_cell : CellSpecimen.t) (data_set : DataSet)
    : prog (list float * list (list float) * list (list float)
            * list (list float)) :=
  let dsi_cell_id := CellSpecimen.cell_specimen_id dsi_cell in
  '(time, raw_traces) ←
    call_sdk (get_fluorescence_traces data_set [dsi_cell_id]);
  '(_, neuropil_traces) ←
    call_sdk (get_neuropil_traces data_set [dsi_cell_id]);
  '(_, corrected_traces) ←
    call_sdk (get_corrected_fluorescence_traces data_set [dsi_cell_id]);
  '(_, dff_traces) ← call_sdk (get_dff_traces data_set [dsi_cell_id]);
  mret (time, raw_traces, corrected_traces, dff_traces).

Definition cell_22 (time : list float)
    (raw_traces corrected_traces dff_traces : list (list float))
    : prog unit :=
  emit Figure;;
  emit (Title "Raw Fluorescence Trace");;
  raw0 ← first raw_traces;
  plot time raw0;;
  emit Show;;
  emit Figure;;
  emit (Title "Neuropil-corrected Fluorescence Trace");;
  corrected0 ← first corrected_traces;
  plot time corrected0;;
  emit Show;;
  emit Figure;;
  emit (Title "dF/F Trace");;
  dff0 ← first dff_traces;
  let time_axis := Py.slice_to time (Py.len dff0) in
  dff0 ← first dff_traces;
  plot time_axis dff0;;
  emit Show.

(** The three-way [zip] of cell 24. *)
Definition zip3 {A B C} (a : list A) (b : list B) (c : list C)
    : list (A * B * C) :=
  zip (zip a b) c.

Definition cell_24 : prog unit :=
  data_set ← call_sdk (get_ophys_experiment_data 510221121);
  ids ← call_sdk (get_cell_specimen_ids data_set);
  let cids := Py.slice_to_step ids 15 5 in
  roi_mask_list ← call_sdk (get_roi_mask data_set (Some cids));
  let axes := seq 0 (length cids + 2) in
  emit (Subplots (length cids + 2));;
  for_ (zip3 (Py.slice_to axes (-2)) roi_mask_list cids)
    (λ '(ax, roi_mask, cid),
       emit (Imshow ax (ImInt (get_mask_plane roi_mask)) None);;
       emit (SetTitle ax "cell %d" [VInt cid]));;
  all_roi_masks ← call_sdk (get_roi_mask data_set None);
  sum_mask ← lift (Cell24.sum_mask (MOVIE_FOV_PX data_set) all_roi_masks);
  emit (Imshow (length cids) (ImFloat sum_mask) None);;
  emit (SetTitle (length cids) "all ROIs" []);;
  max_projection ← call_sdk (get_max_projection data_set);
  emit (Imshow (length cids + 1) (ImInt max_projection) None);;
  emit (SetTitle (length cids + 1) "max projection" []);;
  emit Show.

Definition cell_26 : prog DriftingGratings :=
  data_set ← call_sdk (get_ophys_experiment_data 512326618);
  dg ← call_sdk (drifting_gratings data_set);
  emit (Print "done analyzing drifting grating" []);;
  mret dg.

(** The two histograms and their plots; the second axis shows [os]. *)
Definition cell_27 (dg : DriftingGratings) : prog unit :=
  '(os, ds) ← lift (Cell27.histograms dg);
  max_count ← lift (Cell27.max_count os ds);
  emit (Subplots 2);;
  emit (Imshow 0 (ImInt ds) (Some (0%Z, max_count)));;
  emit (SetLabels 0 "temporal frequency" "direction");;
  emit (SetTickLabels 0 (Py.slice_from1 (tfvals dg)) (orivals dg));;
  emit (SetTitle 0 "direction selective cells" []);;
  emit (Imshow 1 (ImInt os) (Some (0%Z, max_count)));;
  emit (SetLabels 1 "temporal frequency" "orientation");;
  emit (SetTickLabels 1 (Py.slice_from1 (tfvals dg)) (orivals dg));;
  emit (SetTitle 1 "orientation selective cells" []);;
  emit (Colorbar max_count);;
  emit Show.

(** Returns [data_set], [csid] and [time] for cells 31 and 33. *)
Definition cell_29 : prog (DataSet * Z * list float) :=
  data_set ← call_sdk (get_ophys_experiment_data 510221121);
  ids ← call_sdk (get_cell_specimen_ids data_set);
  csid ← first ids;
  '(time, raw_traces) ← call_sdk (get_fluorescence_traces data_set [csid]);
  '(_, neuropil_traces) ← call_sdk (get_neuropil_traces data_set [csid]);
  raw0 ← first raw_traces;
  neuropil0 ← first neuropil_traces;
  results ← call_sdk (estimate_contamination_ratios raw0 neuropil0);
  raw0 ← first raw_traces;
  neuropil0 ← first neuropil_traces;
  correction ← lift (Cell29.correction raw0 neuropil0 (Contamination.r results));
  emit (Print "r = %f" [VFloat (Contamination.r results)]);;
  emit (Print "max error = %f" [VFloat (Contamination.err results)]);;
  mret (data_set, csid, time).

Definition cell_31 (data_set : DataSet) (csid : Z) (time : list float)
    : prog (list (list float)) :=
  '(_, corrected_traces) ←
    call_sdk (get_corrected_fluorescence_traces data_set [csid]);
  emit Figure;;
  emit (Title "Neuropil-corrected Fluorescence Trace");;
  corrected0 ← first corrected_traces;
  plot time corrected0;;
  emit Show;;
  mret corrected_traces.

Definition cell_33 (time : list float)
    (corrected_traces : list (list float)) : prog unit :=
  emit Figure;;
  emit (Title "dF/F Trace");;
  dff ← call_sdk (compute_dff corrected_traces);
  dff0 ← first dff;
  plot time dff0;;
  emit Show.

Definition cell_36 : prog unit :=
  data_set ← call_sdk (get_ophys_experiment_data 501940850);
  '(dxcm, dxtime) ← call_sdk (get_running_speed data_set);
  emit Figure;;
  plot dxtime dxcm;;
  emit Show.

Definition cell_38 : prog unit :=
  data_set ← call_sdk (get_ophys_experiment_data 501940850);
  mc ← call_sdk (get_motion_correction data_set);
  emit Figure;;
  plot (Motion.timestamp mc) (Motion.x_motion mc);;
  plot (Motion.timestamp mc) (Motion.y_motion mc);;
  emit (Legend ["x motion"; "y motion"]);;
  emit Show.

(** The notebook: its code cells run top to bottom. *)
Definition notebook : prog unit :=
  cell_2;;
  visp_ecs ← cell_3;
  cell_4;;
  cell_5;;
  cell_6;;
  cux2_ecs ← cell_7;
  cell_9 cux2_ecs;;
  exp ← cell_11 cux2_ecs;
  exp ← cell_13 exp;
  frames ← cell_15 visp_ecs;
  cell_17 (Cell15.dsi_cells frames);;
  '(dsi_cell, data_set) ← cell_19 (Cell15.dsi_cells frames);
  '(time, raw_traces, corrected_traces, dff_traces) ←
    cell_21 dsi_cell data_set;
  cell_22 time raw_traces corrected_traces dff_traces;;
  cell_24;;
  dg ← cell_26;
  cell_27 dg;;
  '(data_set, csid, time) ← cell_29;
  corrected_traces ← cell_31 data_set csid time;
  cell_33 time corrected_traces;;
  cell_36;;
  cell_38.

End Notebook.

(** * Part IV: the SDK, modelled *)

(** The AllenSDK is not in the repository.  The two modules below model the
    two behaviours of it that statements about the notebook rest on: how
    the catalogue queries select records, and how experiment data is
    downloaded once and then served from local storage. *)

Module Sdk.

(** Modelled from the spec: the catalogue behind
    [get_experiment_containers] and [get_ophys_experiments], which is
    missing from the sources.  The spec's data model: an experiment
    container has a targeted structure, an imaging depth and a Cre line; an
    ophys experiment belongs to exactly one container and has a session
    type, which tells the stimuli presented. *)
Record catalogue : Type := mk_catalogue {
  containers : list Container.t;
  experiments : list Experiment.t;
  stimuli_of_session : string → list string
}.

(** A keyword filter that was left out keeps every record. *)
Definition allowed {A} `{EqDecision A} (filter : option (list A)) (x : A)
    : bool :=
  match filter with
  | None => true
  | Some values => bool_decide (x ∈ values)
  end.

(** Modelled from the spec: [get_experiment_containers(targeted_structures,
    cre_lines)] returns the containers with one of the structures and one
    of the Cre lines. *)
Definition experiment_containers (db : catalogue)
    (targeted_structures cre_lines : option (list string))
    : list Container.t :=
  List.filter
    (λ ec, allowed targeted_structures (Container.targeted_structure ec)
           && allowed cre_lines (Container.cre_line ec))
    (containers db).

(** Modelled from the spec: [get_ophys_experiments(experiment_container_ids,
    stimuli)] returns the experiments of the given containers ("find all
    of the experiments for an experiment container", cell 9) whose session
    presents one of the stimuli. *)
Definition ophys_experiments (db : catalogue)
    (experiment_container_ids : list Z) (stimuli : option (list string))
    : list Experiment.t :=
  List.filter
    (λ e, bool_decide (Experiment.experiment_container_id e
                       ∈ experiment_container_ids)
          && match stimuli with
             | None => true
             | Some wanted =>
                 existsb (λ s, bool_decide (s ∈ wanted))
                   (stimuli_of_session db (Experiment.session_type e))
             end)
    (experiments db).

End Sdk.

Module Cache.

(** Modelled from the spec: the download cache of [BrainObservatoryCache],
    which is missing from the sources.  The spec: "data is fetched once
    and cached to local storage by the external library on first request";
    the notebook: the manifest keeps track of downloaded data, and all
    downloaded files are stored under its directory.  The state is the
    local storage (the data set stored for an experiment id) and the log
    of downloads, latest first. *)
Record state : Type := mk {
  files : gmap Z DataSet;
  downloads : list Z
}.

(** The storage of a fresh manifest directory. *)
Definition empty : state := mk ∅ [].

Section Handler.
(** What the server holds for an experiment id, and the answers to all
    other calls. *)
Variable remote : Z → DataSet.
Variable sdk : ∀ t, call t → answer_of t.

(** Modelled from the spec: [boc.get_ophys_experiment_data(id)] serves
    the stored data set if there is one; otherwise it downloads it,
    stores it and serves it. *)
Definition fetch (id : Z) (st : state) : DataSet * state :=
  match files st !! id with
  | Some data_set => (data_set, st)
  | None =>
      let data_set := remote id in
      (data_set, mk (<[id := data_set]> (files st)) (id :: downloads st))
  end.

(** The SDK as the notebook's handler: experiment data goes through the
    cache, every other call is answered by [sdk]. *)
Definition handle : handler state := λ t c,
  match c in call t return state → answer_of t * state with
  | get_ophys_experiment_data id => fetch id
  | c' => λ st, (sdk _ c', st)
  end.
End Handler.

End Cache.

(** An SDK that keeps no state: every call is answered by [sdk]. *)
Definition stateless (sdk : ∀ t, call t → answer_of t) : handler unit :=
  λ t c s, (sdk t c, s).

(** The experiment data requested in a run: each
    [get_ophys_experiment_data(id)] with the data set it returned. *)
Definition fetched (tr : list event) : list (Z * DataSet) :=
  omap (λ e,
    match e with
    | @EvCall t c x =>
        match c in call t return answer_of t → option (Z * DataSet) with
        | get_ophys_experiment_data id => λ data_set, Some (id, data_set)
        | _ => λ _, None
        end x
    | _ => None
    end) tr.

(** * Part V: the cells that write in place, over a store of objects

    Python variables hold references.  Cells 15, 24 and 27 are the cells
    that build objects of their own (frames, masks, histograms); here they
    run over a store in which every array and frame has a location, so that
    a write into an object received from the SDK would show. *)

Module Store.

(** Locations are numbers. *)
Abbreviation loc := nat.

(** The objects the three cells handle. *)
Inductive obj : Type :=
| IntArray (a : Np.ndarray Z)
| FloatArray (a : Np.ndarray float)
| BoolArray (a : Np.ndarray bool)
| Records (l : list CellSpecimen.t)
| Containers (l : list Container.t)
| Frame (df : Pd.DataFrame CellSpecimen.t)
| PeakFrame (df : Pd.DataFrame Peak.t)
| BoolSeries (s : Pd.Series bool).

Abbreviation store := (gmap nat obj).

(** A statement over the store: it ends with a value or an exception and
    a new store.  [None] is a reference to nothing or to an object of the
    wrong type, which Python code cannot hold. *)
Definition M (A : Type) : Type := store → option (result A * store).

Definition ret {A} (a : A) : M A := λ h, Some (Ok a, h).
Definition bind {A B} (m : M A) (f : A → M B) : M B := λ h,
  match m h with
  | Some (Ok a, h') => f a h'
  | Some (Raised e, h') => Some (Raised e, h')
  | None => None
  end.
Definition lift {A} (x : result A) : M A := λ h, Some (x, h).

(** A new object, at a location not in use. *)
Definition alloc (o : obj) : M loc := λ h,
  let l := fresh (dom h) in Some (Ok l, <[l := o]> h).
Definition load (l : loc) : M obj := λ h,
  match h !! l with
  | Some o => Some (Ok o, h)
  | None => None
  end.
(** An in-place write: the object at [l] is replaced. *)
Definition write (l : loc) (o : obj) : M unit := λ h,
  match h !! l with
  | Some _ => Some (Ok tt, <[l := o]> h)
  | None => None
  end.
Definition stuck {A} : M A := λ _, None.


#[global] Instance M_ret : MRet M := @ret.
#[global] Instance M_bind : MBind M := λ A B f m, bind m f.

(** [for x in l: body], the body working on the store. *)
Fixpoint for_ {X} (l : list X) (body : X → M unit) : M unit :=
  match l with
  | [] => ret tt
  | x :: l' => bind (body x) (λ _, for_ l' body)
  end.

(** *** numpy and pandas on references *)

(** [np.zeros(shape)]: a new array. *)
Definition np_zeros_float (sh : nat * nat) : M loc :=
  alloc (FloatArray (Np.zeros 0%float sh)).
Definition np_zeros_int (n m : Z) : M loc :=
  a ← lift (Np.zeros_Z 0%Z n m);
  alloc (IntArray a).

(** [plane > c]: a new boolean array. *)
Definition np_gt (plane : loc) (c : Z) : M loc :=
  o ← load plane;
  match o with
  | IntArray a => alloc (BoolArray (Np.gt_scalar a c))
  | _ => stuck
  end.

(** [target[mask] = v]: writes into [target]. *)
Definition np_setitem_mask (target mask : loc) (v : float) : M unit :=
  t ← load target;
  m ← load mask;
  match t, m with
  | FloatArray a, BoolArray b =>
      a' ← lift (Np.setitem_mask a b v);
      write target (FloatArray a')
  | _, _ => stuck
  end.

(** [target[i, j] += d]: writes into [target]. *)
Definition np_iadd_at (target : loc) (i j d : Z) : M unit :=
  t ← load target;
  match t with
  | IntArray a =>
      a' ← lift (Np.iadd_at a i j d);
      write target (IntArray a')
  | _ => stuck
  end.

(** [pd.DataFrame.from_records(records)]: a new frame. *)
Definition from_records (records : loc) : M loc :=
  o ← load records;
  match o with
  | Records l => alloc (Frame (Pd.from_records l))
  | _ => stuck
  end.

(** A boolean series computed from the frame at [frame]: a new series. *)
Definition mask_of_frame (frame : loc)
    (mask : Pd.DataFrame CellSpecimen.t → Pd.Series bool) : M loc :=
  o ← load frame;
  match o with
  | Frame df => alloc (BoolSeries (mask df))
  | _ => stuck
  end.

(** [frame[mask]]: a new frame. *)
Definition getitem_mask (frame mask : loc) : M loc :=
  f ← load frame;
  m ← load mask;
  match f, m with
  | Frame df, BoolSeries s => alloc (Frame (Pd.getitem_mask df s))
  | _, _ => stuck
  end.

(** *** Cell 15 *)

(** [cells] is the location of the list [boc.get_cell_specimens()]
    returned, [visp_ecs] that of the list of VISp containers.  The result
    is the locations of [cells] (rebound to the frame), [visp_cells],
    [sig_cells] and [dsi_cells]. *)
Definition cell_15 (cells visp_ecs : loc) : M (loc * loc * loc * loc) :=
  cells ← from_records cells;
  ecs ← load visp_ecs;
  match ecs with
  | Containers visp_ecs =>
      let visp_ec_ids := Container.id <$> visp_ecs in
      m ← mask_of_frame cells (λ df,
            Pd.isin (Pd.column CellSpecimen.experiment_container_id df)
                    visp_ec_ids);
      visp_cells ← getitem_mask cells m;
      m ← mask_of_frame visp_cells (λ df,
            Pd.lt (Pd.column CellSpecimen.p_dg df) 0.05%float);
      sig_cells ← getitem_mask visp_cells m;
      m ← mask_of_frame sig_cells (λ df,
            Pd.and (Pd.gt (Pd.column CellSpecimen.dsi_dg df) 0.5%float)
                   (Pd.lt (Pd.column CellSpecimen.dsi_dg df) 1.5%float));
      dsi_cells ← getitem_mask sig_cells m;
      ret (cells, visp_cells, sig_cells, dsi_cells)
  | _ => stuck
  end.

(** *** Cell 24 *)

(** [all_roi_masks] holds, for every ROI mask, the location of the array
    [roi_mask.get_mask_plane()] hands out.  The result is the location of
    [sum_mask]. *)
Definition cell_24 (MOVIE_FOV_PX : nat * nat) (all_roi_masks : list loc)
    : M loc :=
  sum_mask ← np_zeros_float MOVIE_FOV_PX;
  for_ all_roi_masks (λ plane,
    positive ← np_gt plane 0;
    np_setitem_mask sum_mask positive 1%float);;
  ret sum_mask.

(** *** Cell 27 *)

(** The loop [for i, trial in rows: hist[trial.ori_dg, trial.tf_dg-1] += 1]
    on the histogram at [hist]. *)
Definition fill (hist : loc) (rows : list (Z * Peak.t)) : M unit :=
  for_ rows (λ row,
    let trial := row.2 in
    np_iadd_at hist (Peak.ori_dg trial) (Peak.tf_dg trial - 1) 1).

(** [peak] is the location of the frame [dg.peak].  The result is the
    locations of [os] and [ds]. *)
Definition cell_27 (peak : loc) (orivals tfvals : list Z) : M (loc * loc) :=
  p ← load peak;
  match p with
  | PeakFrame df =>
      let dg := mk_dg df orivals tfvals in
      osi_cells ← alloc (BoolSeries (Cell27.osi_cells dg));
      dsi_cells ← alloc (BoolSeries (Cell27.dsi_cells dg));
      os ← np_zeros_int (Py.len orivals) (Py.len tfvals - 1);
      ds ← np_zeros_int (Py.len orivals) (Py.len tfvals - 1);
      osi_rows ← alloc (PeakFrame (Pd.getitem_mask df (Cell27.osi_cells dg)));
      fill os (Pd.iterrows (Pd.getitem_mask df (Cell27.osi_cells dg)));;
      dsi_rows ← alloc (PeakFrame (Pd.getitem_mask df (Cell27.dsi_cells dg)));
      fill ds (Pd.iterrows (Pd.getitem_mask df (Cell27.dsi_cells dg)));;
      ret (os, ds)
  | _ => stuck
  end.

(** The three cells one after the other, as in the notebook. *)
Definition cells (cell_specimens visp_ecs : loc)
    (MOVIE_FOV_PX : nat * nat) (all_roi_masks : list loc)
    (peak : loc) (orivals tfvals : list Z)
    : M (loc * loc * loc * loc * loc * (loc * loc)) :=
  '(cells, visp_cells, sig_cells, dsi_cells) ← cell_15 cell_specimens visp_ecs;
  sum_mask ← cell_24 MOVIE_FOV_PX all_roi_masks;
  hists ← cell_27 peak orivals tfvals;
  ret (cells, visp_cells, sig_cells, dsi_cells, sum_mask, hists).

End Store.

(** * A small Brain Observatory, for running the notebook *)

Module Demo.

Definition db : Sdk.catalogue :=
  Sdk.mk_catalogue
    [ Container.mk 511510695 "VISal" 175 "Cux2-CreERT2" 143%float;
      Container.mk 511510736 "VISp" 175 "Cux2-CreERT2" 120%float;
      Container.mk 511498742 "VISp" 275 "Rorb-IRES2-Cre" 101%float ]
    [ Experiment.mk 501498760 511510695 "three_session_A";
      Experiment.mk 501559087 511510695 "three_session_B";
      Experiment.mk 501474098 511510695 "three_session_C";
      Experiment.mk 501940850 511510736 "three_session_A";
      Experiment.mk 510221121 511510736 "three_session_B";
      Experiment.mk 512326618 511498742 "three_session_A" ]
    (λ session,
       if decide (session = "three_session_A")
       then ["drifting_gratings"; "natural_movie_one"; "spontaneous"]
       else if decide (session = "three_session_B")
       then ["static_gratings"; "natural_scenes"; "spontaneous"]
       else ["locally_sparse_noise"; "natural_movie_two"]).

(** Cells 517 and 521 are direction selective in VISp; 518 is not
    significant; 519 is outside VISp; 520 has no drifting-gratings metrics
    (NaN). *)
Definition cell_specimens : list CellSpecimen.t :=
  [ CellSpecimen.mk 519 511510695 0.01%float 0.9%float;
    CellSpecimen.mk 517 511510736 0.01%float 0.8%float;
    CellSpecimen.mk 518 511510736 0.2%float 0.7%float;
    CellSpecimen.mk 520 511498742 nan nan;
    CellSpecimen.mk 521 511498742 0.001%float 1.2%float ].

Definition data_set (id : Z) : DataSet := mk_data_set id (2, 3).

Definition masks : list RoiMask :=
  [ mk_roi_mask (Np.mk_ndarray (2, 3) [[1; 0; 0]; [0; 0; 0]]%Z);
    mk_roi_mask (Np.mk_ndarray (2, 3) [[0; 0; 0]; [0; 2; 0]]%Z);
    mk_roi_mask (Np.mk_ndarray (2, 3) [[1; 1; 0]; [0; 0; 0]]%Z) ].

Definition dg : DriftingGratings :=
  mk_dg
    (Pd.from_records
       [ Peak.mk 0.01 5 0.8 0.9 0 1;
         Peak.mk 0.01 5 0.7 0.2 1 2;
         Peak.mk 0.01 5 0.9 0.6 1 2;
         Peak.mk 0.5 5 0.9 0.9 2 3;
         Peak.mk 0.01 1 0.9 0.9 2 3 ]%float)
    [0; 45; 90]%Z [0; 1; 2; 4]%Z.

Definition traces (scale : float) : list float * list (list float) :=
  ([0; 1; 2]%float, [PrimFloat.mul scale <$> [3; 4; 5]%float]).

(** The answers of this observatory. *)
Definition sdk : ∀ t, call t → answer_of t := λ t c,
  match c in call t return answer_of t with
  | get_all_targeted_structures => ["VISal"; "VISp"]
  | get_experiment_containers structures lines =>
      Sdk.experiment_containers db structures lines
  | get_all_imaging_depths => [175; 275]%Z
  | get_all_stimuli =>
      ["drifting_gratings"; "locally_sparse_noise"; "natural_movie_one";
       "natural_movie_two"; "natural_scenes"; "spontaneous";
       "static_gratings"]
  | get_all_cre_lines => ["Cux2-CreERT2"; "Rorb-IRES2-Cre"]
  | get_ophys_experiments ids stimuli => Sdk.ophys_experiments db ids stimuli
  | get_ophys_experiment_data id => data_set id
  | get_cell_specimens => cell_specimens
  | get_metadata d => [("ophys_experiment_id", "nwb")]
  | list_stimuli d => ["drifting_gratings"; "spontaneous"]
  | get_fluorescence_traces d ids => traces 1
  | get_neuropil_traces d ids => traces 0.5
  | get_corrected_fluorescence_traces d ids => traces 0.75
  | get_dff_traces d ids => ([0; 1; 2]%float, [[0.1; 0.2]%float])
  | get_cell_specimen_ids d => [10; 11; 12; 13; 14; 15; 16]%Z
  | get_roi_mask d (Some ids) => take (length ids) masks
  | get_roi_mask d None => masks
  | get_max_projection d => Np.mk_ndarray (2, 3) [[7; 1; 0]; [0; 9; 0]]%Z
  | get_running_speed d => ([1.5; 2.5]%float, [0; 1]%float)
  | get_motion_correction d =>
      Motion.mk [0; 1]%float [0.5; 0.25]%float [1; 2]%float
  | drifting_gratings d => dg
  | estimate_contamination_ratios F_M F_N => Contamination.mk 0.5 0.01
  | compute_dff x => x
  end.

(** An observatory without direction-selective cells in VISp (its one
    VISp cell is not significant), which reads an empty list of container
    ids as no restriction. *)
Definition sdk_no_dsi : ∀ t, call t → answer_of t := λ t c,
  match c in call t return answer_of t with
  | get_cell_specimens =>
      [ CellSpecimen.mk 519 511510695 0.01%float 0.9%float;
        CellSpecimen.mk 517 511510736 0.3%float 0.8%float ]
  | get_ophys_experiments [] stimuli =>
      Sdk.ophys_experiments db (Container.id <$> Sdk.containers db) stimuli
  | c' => sdk _ c'
  end.

(** The objects of this observatory that cells 15, 24 and 27 receive, in
    a store: the cell specimens at 0, the VISp containers at 1, the three
    mask planes at 2 to 4, the table [dg.peak] at 5. *)
Definition store : gmap nat Store.obj :=
  list_to_map
    [ (0, Store.Records cell_specimens);
      (1, Store.Containers (Sdk.experiment_containers db (Some ["VISp"]) None));
      (2, Store.IntArray (Np.mk_ndarray (2, 3) [[1; 0; 0]; [0; 0; 0]]%Z));
      (3, Store.IntArray (Np.mk_ndarray (2, 3) [[0; 0; 0]; [0; 2; 0]]%Z));
      (4, Store.IntArray (Np.mk_ndarray (2, 3) [[1; 1; 0]; [0; 0; 0]]%Z));
      (5, Store.PeakFrame (peak dg)) ].

End Demo.

(** * What a trace tells about the calls *)

(** The data set a call is a method of: the receiver of the data-set
    methods, and the argument of the [DriftingGratings] constructor. *)
Definition receiver {t} (c : call t) : option DataSet :=
  match c with
  | get_metadata d | list_stimuli d | get_cell_specimen_ids d
  | get_max_projection d | get_running_speed d | get_motion_correction d
  | drifting_gratings d => Some d
  | get_fluorescence_traces d _ | get_neuropil_traces d _
  | get_corrected_fluorescence_traces d _ | get_dff_traces d _
  | get_roi_mask d _ => Some d
  | _ => None
  end.

(** The data set the variable [data_set] (in cell 13, [exp]) is bound to
    after a call: the one [get_ophys_experiment_data] just returned, or the
    one it was bound to before. *)
Definition rebind {t} (c : call t)
    : answer_of t → option DataSet → option DataSet :=
  match c in call t return answer_of t → option DataSet → option DataSet with
  | get_ophys_experiment_data _ => λ d _, Some d
  | _ => λ _ bound, bound
  end.

(** Every method of a data set in the trace is called on the data set that
    the latest [get_ophys_experiment_data] before it returned. *)
Fixpoint uses_latest (bound : option DataSet) (tr : list event) : Prop :=
  match tr with
  | [] => True
  | EvCall c x :: tr' =>
      match receiver c with
      | Some d => bound = Some d
      | None => True
      end
      ∧ uses_latest (rebind c x bound) tr'
  | _ :: tr' => uses_latest bound tr'
  end.

(** The name of the method or function a call invokes. *)
Definition method {t} (c : call t) : string :=
  match c with
  | get_all_targeted_structures => "get_all_targeted_structures"
  | get_experiment_containers _ _ => "get_experiment_containers"
  | get_all_imaging_depths => "get_all_imaging_depths"
  | get_all_stimuli => "get_all_stimuli"
  | get_all_cre_lines => "get_all_cre_lines"
  | get_ophys_experiments _ _ => "get_ophys_experiments"
  | get_ophys_experiment_data _ => "get_ophys_experiment_data"
  | get_cell_specimens => "get_cell_specimens"
  | get_metadata _ => "get_metadata"
  | list_stimuli _ => "list_stimuli"
  | get_fluorescence_traces _ _ => "get_fluorescence_traces"
  | get_neuropil_traces _ _ => "get_neuropil_traces"
  | get_corrected_fluorescence_traces _ _ =>
      "get_corrected_fluorescence_traces"
  | get_dff_traces _ _ => "get_dff_traces"
  | get_cell_specimen_ids _ => "get_cell_specimen_ids"
  | get_roi_mask _ _ => "get_roi_mask"
  | get_max_projection _ => "get_max_projection"
  | get_running_speed _ => "get_running_speed"
  | get_motion_correction _ => "get_motion_correction"
  | drifting_gratings _ => "DriftingGratings"
  | estimate_contamination_ratios _ _ => "estimate_contamination_ratios"
  | compute_dff _ => "compute_dff"
  end.

Definition methods (tr : list event) : list string :=
  omap (λ e, match e with EvCall c _ => Some (method c) | _ => None end) tr.

(** The calls of the notebook, cell by cell. *)
Definition notebook_methods : list string :=
  [ "get_all_targeted_structures";                       (* cell 2 *)
    "get_experiment_containers";                         (* cell 3 *)
    "get_all_imaging_depths";                            (* cell 4 *)
    "get_all_stimuli";                                   (* cell 5 *)
    "get_all_cre_lines";                                 (* cell 6 *)
    "get_experiment_containers";                         (* cell 7 *)
    "get_ophys_experiments";                             (* cell 9 *)
    "get_ophys_experiments";                             (* cell 11 *)
    "get_ophys_experiment_data"; "get_metadata";         (* cell 13 *)
    "get_cell_specimens";                                (* cell 15 *)
    "get_ophys_experiments";                             (* cell 17 *)
    "get_ophys_experiments"; "get_ophys_experiment_data";
    "get_metadata"; "list_stimuli";                      (* cell 19 *)
    "get_fluorescence_traces"; "get_neuropil_traces";
    "get_corrected_fluorescence_traces"; "get_dff_traces"; (* cell 21 *)
    "get_ophys_experiment_data"; "get_cell_specimen_ids";
    "get_roi_mask"; "get_roi_mask"; "get_max_projection"; (* cell 24 *)
    "get_ophys_experiment_data"; "DriftingGratings";     (* cell 26 *)
    "get_ophys_experiment_data"; "get_cell_specimen_ids";
    "get_fluorescence_traces"; "get_neuropil_traces";
    "estimate_contamination_ratios";                     (* cell 29 *)
    "get_corrected_fluorescence_traces";                 (* cell 31 *)
    "compute_dff";                                       (* cell 33 *)
    "get_ophys_experiment_data"; "get_running_speed";    (* cell 36 *)
    "get_ophys_experiment_data"; "get_motion_correction" (* cell 38 *) ].
(** * Part V: theorems *)

(** ** Slices *)

Section Slices.
Context {A : Type}.
Implicit Types l : list A.

Lemma slice_stop_len n m : Py.slice_stop n (Z.of_nat m) = Nat.min m n.
Proof.
  unfold Py.slice_stop.
  destruct (Z.ltb_spec (Z.of_nat m) 0); [lia|].
  by rewrite Nat2Z.id.
Qed.

Lemma slice_to_length l stop :
  length (Py.slice_to l stop) = Py.slice_stop (length l) stop.
Proof.
  unfold Py.slice_to. rewrite length_take.
  unfold Py.slice_stop. destruct (Z.ltb_spec stop 0); lia.
Qed.
End Slices.

(** C9.  Cell 22 plots [time[:len(dff_traces[0])]] against [dff_traces[0]].
    The slice is a total function; its length is the minimum of the two
    lengths; it is a prefix of [time]; and when the dF/F trace is no longer
    than the time stamps, the two plotted sequences have the same length. *)
Theorem dff_time_axis_length (time dff : list float) :
  length (Py.slice_to time (Py.len dff)) = Nat.min (length time) (length dff)
  ∧ Py.slice_to time (Py.len dff) `prefix_of` time
  ∧ (length dff ≤ length time →
     length (Py.slice_to time (Py.len dff)) = length dff).
Proof.
  rewrite slice_to_length. unfold Py.len. rewrite slice_stop_len.
  split_and!; [lia | apply prefix_take | lia].
Qed.

(** The dF/F trace one sample shorter than the time stamps: the sliced time
    axis has the length of the trace. *)
Lemma dff_time_axis_length_witness :
  length (Py.slice_to [0; 1; 2; 3]%float (Py.len [5; 6; 7]%float)) = 3.
Proof.
  apply (proj2 (proj2 (dff_time_axis_length [0; 1; 2; 3]%float [5; 6; 7]%float))).
  simpl. lia.
Defined.

(** ** pandas selection *)

Section Selection.
Context {R : Type}.
Implicit Types (df : Pd.DataFrame R) (g h : R → bool).

(** An elementwise operation on a column is the column of the composed
    accessor. *)
Lemma elementwise_column {A B} (f : R → A) (p : A → B) df :
  Pd.elementwise p (Pd.column f df) = Pd.column (p ∘ f) df.
Proof.
  unfold Pd.elementwise, Pd.column. rewrite <- list_fmap_compose.
  apply list_fmap_ext. by intros _ [i r] _.
Qed.

Lemma and_column df g h :
  Pd.and (Pd.column g df) (Pd.column h df)
  = Pd.column (λ r, g r && h r) df.
Proof.
  unfold Pd.and, Pd.column.
  induction df as [|[i r] df IH]; [done|]. cbn. by rewrite IH.
Qed.

(** Selecting with a mask computed row by row from the frame itself is
    filtering the rows by the predicate. *)
Lemma getitem_mask_column df g :
  Pd.getitem_mask df (Pd.column g df) = List.filter (λ x, g x.2) df.
Proof.
  unfold Pd.getitem_mask, Pd.column.
  induction df as [|[i r] df IH]; [done|].
  cbn. destruct (g r); cbn; by rewrite IH.
Qed.

Lemma elem_of_bool_filter {X} (g : X → bool) (l : list X) x :
  x ∈ List.filter g l ↔ x ∈ l ∧ g x = true.
Proof. rewrite !list_elem_of_In. apply filter_In. Qed.

Lemma bool_filter_sublist {X} (g : X → bool) (l : list X) :
  List.filter g l `sublist_of` l.
Proof.
  induction l as [|x l IH]; [done|]. cbn.
  destruct (g x); by constructor.
Qed.
End Selection.

(** Rewrites a selection of the notebook into a [List.filter]. *)
Ltac selection_as_filter :=
  unfold Pd.isin, Pd.lt, Pd.gt, Pd.le;
  rewrite ?elementwise_column, ?and_column, ?getitem_mask_column.

Lemma from_records_labels {R} (l : list R) :
  (Pd.from_records l).*1 = Z.of_nat <$> seq 0 (length l).
Proof.
  unfold Pd.from_records.
  change (λ i r, (Z.of_nat i, r)) with (λ i (r : R), (Z.of_nat (0 + i), r)).
  generalize 0. induction l as [|x l IH]; intros n; [done|].
  cbn. rewrite Nat.add_0_r. f_equal.
  rewrite <- IH. f_equal. apply imap_ext. intros i y _. cbn.
  f_equal. lia.
Qed.


(** The three frames of cell 15 as filters of the frame before. *)
Lemma cell15_as_filters cell_specimens visp_ecs :
  let o := Cell15.run cell_specimens visp_ecs in
  Cell15.cells o = Pd.from_records cell_specimens
  ∧ Cell15.visp_cells o =
      List.filter (λ x, bool_decide
          (CellSpecimen.experiment_container_id x.2 ∈ Container.id <$> visp_ecs))
        (Cell15.cells o)
  ∧ Cell15.sig_cells o =
      List.filter (λ x, PrimFloat.ltb (CellSpecimen.p_dg x.2) 0.05%float)
        (Cell15.visp_cells o)
  ∧ Cell15.dsi_cells o =
      List.filter (λ x, PrimFloat.ltb 0.5%float (CellSpecimen.dsi_dg x.2)
                        && PrimFloat.ltb (CellSpecimen.dsi_dg x.2) 1.5%float)
        (Cell15.sig_cells o).
Proof.
  cbn. selection_as_filter. done.
Qed.

(** Every row of [dsi_cells] is a row of [cells] that passes the three
    tests. *)
Lemma cell15_dsi_rows cell_specimens visp_ecs x :
  let o := Cell15.run cell_specimens visp_ecs in
  x ∈ Cell15.dsi_cells o ↔
    x ∈ Cell15.cells o
    ∧ CellSpecimen.experiment_container_id x.2 ∈ Container.id <$> visp_ecs
    ∧ PrimFloat.ltb (CellSpecimen.p_dg x.2) 0.05%float = true
    ∧ PrimFloat.ltb 0.5%float (CellSpecimen.dsi_dg x.2) = true
    ∧ PrimFloat.ltb (CellSpecimen.dsi_dg x.2) 1.5%float = true.
Proof.
  intros o.
  destruct (cell15_as_filters cell_specimens visp_ecs)
    as (_ & Hv & Hs & Hd). fold o in Hv, Hs, Hd.
  rewrite Hd, elem_of_bool_filter, Hs, elem_of_bool_filter, Hv,
    elem_of_bool_filter, andb_true_iff, bool_decide_eq_true.
  tauto.
Qed.


(** ** numpy arrays *)

Section Arrays.
Context {A : Type}.
Implicit Types (a : Np.ndarray A) (mask : Np.ndarray bool).

Lemma zeros_wf (z : A) sh : Np.wf (Np.zeros z sh).
Proof.
  split; cbn; [by rewrite length_replicate|].
  apply Forall_replicate, length_replicate.
Qed.

Lemma zeros_get (z : A) sh i j :
  i < sh.1 → j < sh.2 → Np.get (Np.zeros z sh) i j = Some z.
Proof.
  intros Hi Hj. unfold Np.get, Np.zeros; cbn.
  rewrite lookup_replicate_2 by done. cbn.
  by rewrite lookup_replicate_2.
Qed.

(** Inside its shape a well-formed array has an element, outside none. *)
Lemma wf_get_is_Some a i j :
  Np.wf a → i < (Np.shape a).1 → j < (Np.shape a).2 →
  is_Some (Np.get a i j).
Proof.
  intros [Hlen Hrows] Hi Hj. unfold Np.get.
  destruct (lookup_lt_is_Some_2 (Np.rows a) i) as [r Hr]; [lia|].
  rewrite Hr. cbn. apply lookup_lt_is_Some_2.
  rewrite Forall_lookup in Hrows. rewrite (Hrows _ _ Hr). done.
Qed.

Lemma setitem_mask_spec a mask (v : A) :
  Np.wf a → Np.wf mask → Np.shape mask = Np.shape a →
  ∃ a', Np.setitem_mask a mask v = Ok a'
    ∧ Np.shape a' = Np.shape a ∧ Np.wf a'
    ∧ ∀ i j, Np.get a' i j =
        x ← Np.get a i j; b ← Np.get mask i j;
        Some (if b : bool then v else x).
Proof.
  intros [Hla Hra] [Hlm Hrm] Hsh. unfold Np.setitem_mask.
  rewrite decide_True by done. eexists. split; [done|]. cbn.
  rewrite Hsh in Hlm, Hrm. split_and!; [done| |].
  - split; cbn.
    + rewrite length_zip_with. lia.
    + rewrite Forall_lookup. intros i r.
      intros (ra & rm & -> & Ha & Hm)%lookup_zip_with_Some.
      rewrite Forall_lookup in Hra. rewrite Forall_lookup in Hrm.
      rewrite length_zip_with, (Hra _ _ Ha), (Hrm _ _ Hm). lia.
  - intros i j. unfold Np.get at 1. cbn. rewrite lookup_zip_with.
    unfold Np.get.
    destruct (Np.rows a !! i) as [ra|]; cbn; [|done].
    destruct (Np.rows mask !! i) as [rm|] eqn:Hm; cbn.
    + rewrite lookup_zip_with. done.
    + destruct (ra !! j); cbn; [|done].
      done.
Qed.
End Arrays.

Lemma gt_scalar_wf (a : Np.ndarray Z) c : Np.wf a → Np.wf (Np.gt_scalar a c).
Proof.
  intros [Hl Hr]. split; cbn; [by rewrite length_fmap|].
  apply Forall_fmap. eapply Forall_impl; [done|].
  intros r Hlen. cbn. by rewrite length_fmap.
Qed.

Lemma gt_scalar_get (a : Np.ndarray Z) c i j :
  Np.get (Np.gt_scalar a c) i j = (λ x, bool_decide (c < x)%Z) <$> Np.get a i j.
Proof.
  unfold Np.get. cbn. rewrite list_lookup_fmap.
  destruct (Np.rows a !! i) as [r|]; cbn; [|done].
  by rewrite list_lookup_fmap.
Qed.

(** ** Cell 24: the union mask *)

Section SumMask.
Variable MOVIE_FOV_PX : nat * nat.

(** One iteration sets the pixels where the plane is positive and keeps
    the others. *)
Lemma sum_mask_body sum_mask roi_mask :
  Np.wf sum_mask → Np.shape sum_mask = MOVIE_FOV_PX →
  Cell24.planes_fit MOVIE_FOV_PX [roi_mask] →
  ∃ s, Cell24.body sum_mask roi_mask = Ok s
    ∧ Np.wf s ∧ Np.shape s = MOVIE_FOV_PX
    ∧ ∀ i j, i < MOVIE_FOV_PX.1 → j < MOVIE_FOV_PX.2 →
        Np.get s i j =
          if Cell24.positive_at i j roi_mask then Some 1%float
          else Np.get sum_mask i j.
Proof.
  intros Hwf Hsh [[Hpw Hps] _]%Forall_cons.
  destruct (setitem_mask_spec sum_mask
              (Np.gt_scalar (get_mask_plane roi_mask) 0) 1%float)
    as (s & Hs & Hshape & Hwfs & Hget);
    [done | by apply gt_scalar_wf | cbn; congruence |].
  exists s. split_and!; [done | done | congruence |].
  intros i j Hi Hj. rewrite Hget, gt_scalar_get.
  unfold Cell24.positive_at.
  destruct (wf_get_is_Some sum_mask i j) as [x ->]; [done | congruence.. |].
  destruct (wf_get_is_Some (get_mask_plane roi_mask) i j) as [v ->];
    [done | congruence.. |].
  cbn. by destruct (bool_decide (0 < v)%Z).
Qed.

(** The loop, from any starting array of the right shape. *)
Lemma sum_mask_loop all_roi_masks sum_mask :
  Np.wf sum_mask → Np.shape sum_mask = MOVIE_FOV_PX →
  Cell24.planes_fit MOVIE_FOV_PX all_roi_masks →
  ∃ s, for_each Cell24.body all_roi_masks sum_mask = Ok s
    ∧ Np.wf s ∧ Np.shape s = MOVIE_FOV_PX
    ∧ ∀ i j, i < MOVIE_FOV_PX.1 → j < MOVIE_FOV_PX.2 →
        Np.get s i j =
          if existsb (Cell24.positive_at i j) all_roi_masks then Some 1%float
          else Np.get sum_mask i j.
Proof.
  intros Hwf Hsh Hfit. revert sum_mask Hwf Hsh.
  induction Hfit as [|m masks Hm Hfit IH]; intros sum_mask Hwf Hsh.
  { exists sum_mask. by split_and!. }
  destruct (sum_mask_body sum_mask m) as (s1 & Hs1 & Hwf1 & Hsh1 & Hget1);
    [done | done | by apply Forall_singleton |].
  destruct (IH s1 Hwf1 Hsh1) as (s & Hs & Hwfs & Hshs & Hget).
  exists s. cbn. rewrite Hs1. cbn. split_and!; [done..|].
  intros i j Hi Hj. rewrite (Hget i j Hi Hj), (Hget1 i j Hi Hj).
  destruct (Cell24.positive_at i j m); cbn; [|done].
  by destruct (existsb _ masks).
Qed.
End SumMask.

(** C8.  Cell 24, when every mask plane has the shape [MOVIE_FOV_PX]: the
    loop finishes, [sum_mask] has the shape [MOVIE_FOV_PX], and at every
    pixel it is [1.0] if some mask plane of [all_roi_masks] is strictly
    positive there and [0.0] if none is; so every entry is [0.0] or [1.0]. *)
Theorem sum_mask_is_union (MOVIE_FOV_PX : nat * nat)
    (all_roi_masks : list RoiMask) :
  Cell24.planes_fit MOVIE_FOV_PX all_roi_masks →
  ∃ sum_mask,
    Cell24.sum_mask MOVIE_FOV_PX all_roi_masks = Ok sum_mask
    ∧ Np.shape sum_mask = MOVIE_FOV_PX ∧ Np.wf sum_mask
    ∧ ∀ i j, i < MOVIE_FOV_PX.1 → j < MOVIE_FOV_PX.2 →
        ((∃ m v, m ∈ all_roi_masks
                 ∧ Np.get (get_mask_plane m) i j = Some v ∧ (0 < v)%Z)
           → Np.get sum_mask i j = Some 1%float)
        ∧ ((∀ m v, m ∈ all_roi_masks →
                   Np.get (get_mask_plane m) i j = Some v → (v ≤ 0)%Z)
           → Np.get sum_mask i j = Some 0%float)
        ∧ (Np.get sum_mask i j = Some 1%float
           ∨ Np.get sum_mask i j = Some 0%float).
Proof.
  intros Hfit.
  destruct (sum_mask_loop MOVIE_FOV_PX all_roi_masks
              (Np.zeros 0%float MOVIE_FOV_PX))
    as (s & Hs & Hwf & Hsh & Hget); [apply zeros_wf | done | done |].
  exists s. split_and!; [done..|].
  intros i j Hi Hj. rewrite (Hget i j Hi Hj), zeros_get by done.
  destruct (existsb _ _) eqn:Hex.
  - split_and!; [done | | by left].
    intros Hall. apply existsb_exists in Hex as (m & Hm & Hpos).
    unfold Cell24.positive_at in Hpos.
    destruct (Np.get (get_mask_plane m) i j) as [v|] eqn:Hv; [|done].
    apply bool_decide_eq_true in Hpos.
    apply list_elem_of_In in Hm. specialize (Hall m v Hm Hv). lia.
  - split_and!; [ | done | by right].
    intros (m & v & Hm & Hv & Hpos).
    assert (existsb (Cell24.positive_at i j) all_roi_masks = true) as Hex'.
    { apply existsb_exists. exists m. split; [by apply list_elem_of_In|].
      unfold Cell24.positive_at. rewrite Hv. by apply bool_decide_eq_true. }
    congruence.
Qed.

(** The three mask planes of the demo observatory: the field of view is
    2 x 3, and the union mask exists. *)
Lemma sum_mask_is_union_witness :
  Cell24.planes_fit (2, 3) Demo.masks
  ∧ ∃ sum_mask, Cell24.sum_mask (2, 3) Demo.masks = Ok sum_mask
                ∧ Np.shape sum_mask = (2, 3).
Proof.
  assert (Cell24.planes_fit (2, 3) Demo.masks) as Hfit.
  { repeat constructor. }
  split; [exact Hfit|].
  destruct (sum_mask_is_union (2, 3) Demo.masks Hfit) as (s & Hs & Hsh & _).
  exists s. split; [exact Hs | exact Hsh].
Defined.

Example demo_sum_mask :
  Cell24.sum_mask (2, 3) Demo.masks
  = Ok (Np.mk_ndarray (2, 3) [[1; 1; 0]; [0; 1; 0]]%float).
Proof. reflexivity. Qed.

(** A mask plane of another shape than the field of view stops the loop. *)
Example sum_mask_shape_mismatch :
  Cell24.sum_mask (3, 3) Demo.masks = Raised (IndexError BoolIndexMismatch).
Proof. reflexivity. Qed.

(** ** Cell 27: the histograms *)

Lemma sum_list_cons x l : Np.sum_list (x :: l) = (x + Np.sum_list l)%Z.
Proof. done. Qed.

Lemma sum_list_replicate_0 n : Np.sum_list (replicate n 0%Z) = 0%Z.
Proof.
  induction n as [|n IH]; [done|].
  change (replicate (S n) 0%Z) with (0%Z :: replicate n 0%Z).
  by rewrite sum_list_cons, IH.
Qed.

Lemma sum_zeros sh : Np.sum (Np.zeros 0%Z sh) = 0%Z.
Proof.
  unfold Np.sum, Np.zeros; cbn. rewrite fmap_replicate, sum_list_replicate_0.
  apply sum_list_replicate_0.
Qed.

Lemma sum_list_alter (f : Z → Z) d j (r : list Z) x :
  r !! j = Some x → f x = (x + d)%Z →
  Np.sum_list (alter f j r) = (Np.sum_list r + d)%Z.
Proof.
  revert j. induction r as [|y r IH]; intros [|j] Hj Hf; try done.
  - injection Hj as ->.
    change (alter f 0 (x :: r)) with (f x :: r).
    rewrite !sum_list_cons. lia.
  - change (alter f (S j) (y :: r)) with (y :: alter f j r).
    rewrite !sum_list_cons, (IH j Hj Hf). lia.
Qed.

Lemma sum_rows_alter (g : list Z → list Z) d i (rows : list (list Z)) r :
  rows !! i = Some r → Np.sum_list (g r) = (Np.sum_list r + d)%Z →
  Np.sum_list (Np.sum_list <$> alter g i rows)
  = (Np.sum_list (Np.sum_list <$> rows) + d)%Z.
Proof.
  revert i. induction rows as [|r' rows IH]; intros [|i] Hi Hg; try done.
  - injection Hi as ->.
    change (alter g 0 (r :: rows)) with (g r :: rows).
    rewrite !fmap_cons, !sum_list_cons. lia.
  - change (alter g (S i) (r' :: rows)) with (r' :: alter g i rows).
    rewrite !fmap_cons, !sum_list_cons, (IH i Hi Hg). lia.
Qed.

(** [a[i, j] += d] with both indices inside the array: one element grows by
    [d], the others stay, and so the sum grows by [d]. *)
Lemma iadd_at_spec (a : Np.ndarray Z) (i j d : Z) :
  Np.wf a →
  (0 ≤ i < Z.of_nat (Np.shape a).1)%Z → (0 ≤ j < Z.of_nat (Np.shape a).2)%Z →
  ∃ a', Np.iadd_at a i j d = Ok a'
    ∧ Np.shape a' = Np.shape a ∧ Np.wf a'
    ∧ Np.sum a' = (Np.sum a + d)%Z
    ∧ ∀ i' j', Np.get a' i' j' =
        if bool_decide (Z.of_nat i' = i ∧ Z.of_nat j' = j)
        then Z.add d <$> Np.get a i' j' else Np.get a i' j'.
Proof.
  intros [Hlen Hrows] Hi Hj. unfold Np.iadd_at, Np.axis_index.
  rewrite !decide_True by done. cbn.
  eexists. split; [done|]. cbn.
  destruct (lookup_lt_is_Some_2 (Np.rows a) (Z.to_nat i)) as [r Hr]; [lia|].
  assert (length r = (Np.shape a).2) as Hlr.
  { rewrite Forall_lookup in Hrows. by apply (Hrows _ _ Hr). }
  destruct (lookup_lt_is_Some_2 r (Z.to_nat j)) as [x Hx]; [lia|].
  split_and!; [done| | |].
  - split; cbn; [by rewrite length_alter|].
    apply Forall_alter; [done|]. intros r' _ Hr'. by rewrite length_alter.
  - unfold Np.sum; cbn. eapply sum_rows_alter; [done|].
    eapply sum_list_alter; [done | lia].
  - intros i' j'. unfold Np.get; cbn.
    destruct (decide (i' = Z.to_nat i)) as [->|Hne].
    + rewrite list_lookup_alter_eq. rewrite Hr. cbn.
      destruct (decide (j' = Z.to_nat j)) as [->|Hne].
      * rewrite bool_decide_eq_true_2 by lia.
        by rewrite list_lookup_alter_eq.
      * rewrite bool_decide_eq_false_2 by lia.
        by rewrite list_lookup_alter_ne.
    + rewrite bool_decide_eq_false_2 by lia.
      by rewrite list_lookup_alter_ne.
Qed.

Section Histogram.

(** The loop over the selected rows, from any well-formed array: every row
    adds one to its bin. *)
Lemma fill_rows_spec (rows : list (Z * Peak.t)) (hist : Np.ndarray Z) :
  Np.wf hist →
  Forall (λ x, (0 ≤ Peak.ori_dg x.2 < Z.of_nat (Np.shape hist).1)%Z
             ∧ (1 ≤ Peak.tf_dg x.2 < Z.of_nat (Np.shape hist).2 + 1)%Z) rows →
  ∃ h, for_each Cell27.body rows hist = Ok h
    ∧ Np.shape h = Np.shape hist ∧ Np.wf h
    ∧ Np.sum h = (Np.sum hist + Z.of_nat (length rows))%Z
    ∧ ∀ i j, Np.get h i j =
        (λ c, c + Z.of_nat (length (List.filter (Cell27.in_bin i j) rows)))%Z
          <$> Np.get hist i j.
Proof.
  intros Hwf Hrows. revert hist Hwf Hrows.
  induction rows as [|x rows IH]; intros hist Hwf Hrows.
  { exists hist. split_and!; [done.. | cbn; lia |].
    intros i j. cbn. destruct (Np.get hist i j); cbn; [|done].
    f_equal. lia. }
  apply Forall_cons in Hrows as [[Hori Htf] Hrows].
  destruct (iadd_at_spec hist (Peak.ori_dg x.2) (Peak.tf_dg x.2 - 1) 1)
    as (h1 & Hh1 & Hsh1 & Hwf1 & Hsum1 & Hget1); [done | lia | lia |].
  destruct (IH h1 Hwf1) as (h & Hh & Hsh & Hwfh & Hsum & Hget).
  { by rewrite Hsh1. }
  exists h. split_and!; [ | congruence | done | cbn [length]; lia |].
  { cbn [for_each].
    change (Cell27.body hist x)
      with (Np.iadd_at hist (Peak.ori_dg x.2) (Peak.tf_dg x.2 - 1) 1).
    by rewrite Hh1. }
  intros i j. rewrite Hget, Hget1. cbn [List.filter].
  assert (Cell27.in_bin i j x
          = bool_decide (Z.of_nat i = Peak.ori_dg x.2
                         ∧ Z.of_nat j = (Peak.tf_dg x.2 - 1)%Z)) as ->.
  { unfold Cell27.in_bin. apply bool_decide_ext. lia. }
  destruct (bool_decide _); destruct (Np.get hist i j); cbn; try done.
  f_equal. lia.
Qed.
End Histogram.

(** The rows the two loops of cell 27 visit, as filters of [dg.peak]. *)
Lemma cell27_rows_as_filters (dg : DriftingGratings) :
  let vis (r : Peak.t) :=
    PrimFloat.ltb (Peak.ptest_dg r) 0.05%float
    && PrimFloat.ltb 3%float (Peak.peak_dff_dg r) in
  Pd.getitem_mask (peak dg) (Cell27.osi_cells dg)
  = List.filter (λ x, vis x.2 && PrimFloat.ltb 0.5%float (Peak.osi_dg x.2)
                      && PrimFloat.leb (Peak.osi_dg x.2) 1.5%float) (peak dg)
  ∧ Pd.getitem_mask (peak dg) (Cell27.dsi_cells dg)
  = List.filter (λ x, vis x.2 && PrimFloat.ltb 0.5%float (Peak.dsi_dg x.2)
                      && PrimFloat.leb (Peak.dsi_dg x.2) 1.5%float) (peak dg).
Proof.
  unfold Cell27.osi_cells, Cell27.dsi_cells, Cell27.vis_cells.
  selection_as_filter. done.
Qed.

(** C10.  Cell 27, when [dg.tfvals] is not empty and every selected row has
    [ori_dg] in [0, len(dg.orivals))] and [tf_dg] in [1, len(dg.tfvals))]:
    both loops finish; [os] and [ds] have the shape
    [(len(orivals), len(tfvals)-1)]; the bin [(i, j)] holds the number of
    selected rows with [ori_dg = i] and [tf_dg = j + 1], so no bin counts the
    blank-sweep index 0; and the entries of [os] (of [ds]) add up to the
    number of orientation-selective (direction-selective) rows. *)
Theorem histograms_conserve_counts (dg : DriftingGratings) :
  let osi_rows := Pd.getitem_mask (peak dg) (Cell27.osi_cells dg) in
  let dsi_rows := Pd.getitem_mask (peak dg) (Cell27.dsi_cells dg) in
  let count (i j : nat) (rows : Pd.DataFrame Peak.t) :=
    Z.of_nat (length (List.filter (Cell27.in_bin i j) rows)) in
  tfvals dg ≠ [] →
  Forall (Cell27.in_range dg) osi_rows →
  Forall (Cell27.in_range dg) dsi_rows →
  ∃ os ds,
    Cell27.histograms dg = Ok (os, ds)
    ∧ Np.shape os = (length (orivals dg), length (tfvals dg) - 1)
    ∧ Np.shape ds = (length (orivals dg), length (tfvals dg) - 1)
    ∧ Np.wf os ∧ Np.wf ds
    ∧ Np.sum os = Z.of_nat (length osi_rows)
    ∧ Np.sum ds = Z.of_nat (length dsi_rows)
    ∧ ∀ i j, i < length (orivals dg) → j < length (tfvals dg) - 1 →
        Np.get os i j = Some (count i j osi_rows)
        ∧ Np.get ds i j = Some (count i j dsi_rows).
Proof.
  intros osi_rows dsi_rows count Htf Hosi Hdsi.
  assert (0 < length (tfvals dg)) as Hlen.
  { destruct (tfvals dg); [done | cbn; lia]. }
  set (sh := (length (orivals dg), length (tfvals dg) - 1)).
  assert (Cell27.empty_hist dg = Ok (Np.zeros 0%Z sh)) as Hempty.
  { unfold Cell27.empty_hist, Np.zeros_Z, Py.len.
    rewrite decide_True by lia. do 2 f_equal. subst sh. f_equal; lia. }
  assert (∀ rows, Forall (Cell27.in_range dg) rows →
    Forall (λ x, (0 ≤ Peak.ori_dg x.2
                    < Z.of_nat (Np.shape (Np.zeros 0%Z sh)).1)%Z
               ∧ (1 ≤ Peak.tf_dg x.2
                    < Z.of_nat (Np.shape (Np.zeros 0%Z sh)).2 + 1)%Z) rows)
    as Hfit.
  { intros rows Hrows. eapply Forall_impl; [done|]. intros x [Ho Ht].
    unfold Py.len in *. cbn. lia. }
  destruct (fill_rows_spec osi_rows (Np.zeros 0%Z sh))
    as (os & Hos & Hsho & Hwfo & Hsumo & Hgeto); [apply zeros_wf | by apply Hfit |].
  destruct (fill_rows_spec dsi_rows (Np.zeros 0%Z sh))
    as (ds & Hds & Hshd & Hwfd & Hsumd & Hgetd); [apply zeros_wf | by apply Hfit |].
  exists os, ds. split_and!; try done.
  - unfold Cell27.histograms, Cell27.fill, Pd.iterrows. rewrite Hempty. cbn.
    fold osi_rows dsi_rows. rewrite Hos. cbn. by rewrite Hds.
  - rewrite Hsumo, sum_zeros. lia.
  - rewrite Hsumd, sum_zeros. lia.
  - intros i j Hi Hj. rewrite Hgeto, Hgetd, !zeros_get by done. done.
Qed.

(** The analysis object of the demo observatory: three orientations, the
    blank sweep and three temporal frequencies, and rows inside them. *)
Lemma histograms_conserve_counts_witness :
  ∃ os ds, Cell27.histograms Demo.dg = Ok (os, ds)
           ∧ Np.sum os = 3%Z ∧ Np.sum ds = 2%Z.
Proof.
  destruct (histograms_conserve_counts Demo.dg)
    as (os & ds & Hrun & _ & _ & _ & _ & Hos & Hds & _).
  - discriminate.
  - vm_compute. repeat constructor; discriminate.
  - vm_compute. repeat constructor; discriminate.
  - exists os, ds. split; [exact Hrun|]. split; [exact Hos | exact Hds].
Defined.

Example demo_histograms :
  Cell27.histograms Demo.dg
  = Ok (Np.mk_ndarray (3, 3) [[1; 0; 0]; [0; 2; 0]; [0; 0; 0]]%Z,
        Np.mk_ndarray (3, 3) [[1; 0; 0]; [0; 1; 0]; [0; 0; 0]]%Z).
Proof. reflexivity. Qed.

(** A row with [tf_dg = 0] (the blank sweep) is outside the precondition:
    its column index is [-1], which numpy wraps to the last column. *)
Example blank_sweep_row_wraps :
  Cell27.body (Np.zeros 0%Z (2, 3)) (0%Z, Peak.mk 0 0 0 0 1 0)
  = Ok (Np.mk_ndarray (2, 3) [[0; 0; 0]; [0; 0; 1]]%Z).
Proof. reflexivity. Qed.

(** ** Runs of programs *)

Section Runs.
Context {S : Type} (h : handler S).

(** Running [p] and then [f] on its value: the traces follow one another,
    and an exception of [p] ends the run. *)
Lemma run_bind {A B} (p : prog A) (f : A → prog B) s :
  run h s (bind p f) =
    let r := run h s p in
    match outcome r with
    | Ok a =>
        let r' := run h (final r) (f a) in
        mk_run (trace r ++ trace r') (outcome r') (final r')
    | Raised e => mk_run (trace r) (Raised e) (final r)
    end.
Proof.
  revert s. induction p as [a|e|t c k IH|o k IH|X l k IH]; intros s; cbn.
  - by destruct (run h s (f a)).
  - done.
  - destruct (h t c s) as [x s']. rewrite IH. cbn.
    by destruct (outcome (run h s' (k x))).
  - rewrite IH. cbn. by destruct (outcome (run h s k)).
  - destruct l as [|x l]; [done|]. rewrite IH. cbn.
    by destruct (outcome (run h s (k x))).
Qed.
End Runs.

(** ** Two runs with the same answers *)





(** ** Reasoning about every run of a program *)

Lemma wp_mono {A} (p : prog A) (Q Q' : result A → list event → Prop) :
  (∀ r tr, Q r tr → Q' r tr) → wp p Q → wp p Q'.
Proof.
  revert Q Q'. induction p as [a|e|t c k IH|o k IH|X l k IH];
    intros Q Q' HQ; cbn; auto.
  - intros Hp x. eapply IH; [|apply Hp]. cbn. auto.
  - apply IH. auto.
  - destruct l as [|x l]; [auto|]. apply IH. auto.
Qed.

Lemma wp_bind {A B} (p : prog A) (f : A → prog B) Q :
  wp p (λ r tr1,
    match r with
    | Ok a => wp (f a) (λ r' tr2, Q r' (tr1 ++ tr2))
    | Raised e => Q (Raised e) tr1
    end) →
  wp (bind p f) Q.
Proof.
  revert Q. induction p as [a|e|t c k IH|o k IH|X l k IH]; intros Q; cbn.
  - done.
  - done.
  - intros Hp x. apply IH. eapply wp_mono; [|apply Hp]. by intros [].
  - intros Hp. apply IH. eapply wp_mono; [|apply Hp]. by intros [].
  - destruct l as [|x l]; [done|].
    intros Hp. apply IH. eapply wp_mono; [|apply Hp]. by intros [].
Qed.

Lemma wp_sound {St A} (h : handler St) (p : prog A) Q s :
  wp p Q → Q (outcome (run h s p)) (trace (run h s p)).
Proof.
  revert Q s. induction p as [a|e|t c k IH|o k IH|X l k IH];
    intros Q s Hp; cbn.
  - done.
  - done.
  - destruct (h t c s) as [x s']. cbn. by apply (IH x _ s' (Hp x)).
  - by apply (IH _ s Hp).
  - destruct l as [|x l]; [done|]. cbn. by apply (IH x _ s Hp).
Qed.

Lemma wp_sound_ok {St A} (h : handler St) (p : prog A) Q s a :
  wp p (on_ok Q) → outcome (run h s p) = Ok a → Q a (trace (run h s p)).
Proof.
  intros Hp Hout. pose proof (wp_sound h p _ s Hp) as HQ.
  by rewrite Hout in HQ.
Qed.

(** A loop whose iterations return and leave traces with the property [P]
    returns and leaves a trace with the property [P], if [P] holds of the
    empty trace and of the concatenation of two traces that have it. *)
Lemma wp_for {X} (P : list event → Prop) (l : list X) body :
  P [] → (∀ tr1 tr2, P tr1 → P tr2 → P (tr1 ++ tr2)) →
  (∀ x, wp (body x) (λ r tr, r = Ok tt ∧ P tr)) →
  wp (for_ l body) (λ r tr, r = Ok tt ∧ P tr).
Proof.
  intros Hnil Happ Hbody. induction l as [|x l IH]; cbn; [done|].
  apply wp_bind. eapply wp_mono; [|apply Hbody]. cbn.
  intros r tr1 [-> H1]. eapply wp_mono; [|apply IH]. cbn.
  intros r tr2 [-> H2]. auto.
Qed.

(** Walks through a program under [wp]: answers are introduced, the
    branches that raise are dismissed, and a loop is summarised by the
    property [P] of the trace it leaves. *)
Ltac unfold_notebook :=
  unfold Notebook.notebook, Notebook.cell_2, Notebook.cell_3, Notebook.cell_4,
    Notebook.cell_5, Notebook.cell_6, Notebook.cell_7, Notebook.cell_9,
    Notebook.cell_11, Notebook.cell_13, Notebook.cell_15, Notebook.cell_17,
    Notebook.cell_19, Notebook.cell_21, Notebook.cell_22, Notebook.cell_24,
    Notebook.cell_26, Notebook.cell_27, Notebook.cell_29, Notebook.cell_31,
    Notebook.cell_33, Notebook.cell_36, Notebook.cell_38;
  unfold plot, lift;
  unfold mbind, prog_bind, mret, prog_ret, call_sdk, emit, first.

Ltac wp_walk P P_nil P_app :=
  repeat first
    [ progress cbn [bind wp app on_ok]
    | exact I
    | intros ?
    | lazymatch goal with
      | |- match ?l with [] => _ | _ :: _ => _ end =>
          destruct l as [|? ?] eqn:?
      | |- wp (let '(_, _) := ?x in _) _ => destruct x
      | |- wp (bind (let '(_, _) := ?x in _) _) _ => destruct x
      | |- wp (if decide ?P is left _ then _ else _) _ => destruct (decide P)
      | |- wp (bind (if decide ?P is left _ then _ else _) _) _ =>
          destruct (decide P)
      | |- wp (match ?r with Ok _ => _ | Raised _ => _ end) _ =>
          destruct r eqn:?
      | |- wp (bind (match ?r with Ok _ => _ | Raised _ => _ end) _) _ =>
          destruct r eqn:?
      | |- wp (for_ _ _) _ =>
          eapply (wp_mono _ (λ r tr, r = Ok tt ∧ P tr));
          [let r := fresh in intros r ? [-> ?]
          |apply (wp_for P); [exact P_nil | exact P_app |]]
      | |- _ = Ok tt ∧ _ => split; [reflexivity|]
      | |- wp (bind (for_ _ _) _) _ => apply wp_bind
      | |- wp (bind (bind _ _) _) _ => apply wp_bind
      end ].

(** Finds an event in a trace written out as conses and appends. *)
Ltac find_event :=
  solve
    [ apply list_elem_of_here
    | apply list_elem_of_further; find_event
    | apply elem_of_app; left; find_event
    | apply elem_of_app; right; find_event ].

(** ** First-element accesses *)















Section FirstAccess.
Context {St A : Type} (h : handler St).




End FirstAccess.

(** ** The sequences the notebook takes the first element of *)






(** The demo run itself. *)
Example demo_run_completes :
  outcome (run (stateless Demo.sdk) tt Notebook.notebook) = Ok tt.
Proof. vm_compute. reflexivity. Qed.

(** The cell-specimen table is not empty but no cell passes the filters:
    every answer of the SDK is non-empty, and [dsi_cells.iloc[0]] in
    cell 19 raises, after the six accesses before it. *)
Example no_dsi_cell_run_fails :
  let r := run (stateless Demo.sdk_no_dsi) tt Notebook.notebook in
  Forall nonempty_event (trace r)
  ∧ first_accesses (trace r) = [2; 2; 2; 1; 3; 0]
  ∧ outcome r = Raised (IndexError EmptySequence).
Proof.
  intros r. split; [|vm_compute; done].
  remember (trace r) as tr eqn:Etr. vm_compute in Etr. subst tr.
  repeat (apply Forall_cons_2; [cbn; first [exact I | discriminate]|]).
  apply Forall_nil_2.
Qed.

(** ** Cell 29: the subtraction *)

Lemma broadcast2_same_length {A B C} (f : A → B → C) a b :
  length a = length b → Np.broadcast2 f a b = Ok (zip_with f a b).
Proof. intros Hlen. unfold Np.broadcast2. by rewrite decide_True. Qed.

(** For two traces of the same length, [correction] holds, sample by
    sample, the raw trace minus [r] times the neuropil trace. *)
Lemma correction_pointwise (raw0 neuropil0 : list float) (r : float) c :
  Cell29.correction raw0 neuropil0 r = Ok c →
  length raw0 = length neuropil0 →
  length c = length raw0
  ∧ ∀ t x n, raw0 !! t = Some x → neuropil0 !! t = Some n →
      c !! t = Some (PrimFloat.sub x (PrimFloat.mul r n)).
Proof.
  intros Hc Hlen. unfold Cell29.correction, Np.sub, Np.scalar_mul in Hc.
  rewrite broadcast2_same_length in Hc by by rewrite length_fmap.
  injection Hc as <-. split.
  - rewrite length_zip_with, length_fmap. lia.
  - intros t x n Hx Hn. rewrite lookup_zip_with, Hx. cbn.
    by rewrite list_lookup_fmap, Hn.
Qed.

Lemma float_neq_by_lt (x y pivot : float) :
  PrimFloat.ltb x pivot = true → PrimFloat.ltb y pivot = false → x ≠ y.
Proof. intros Hx Hy ->. congruence. Qed.

(** The value cell 29 computes is a new array: with raw trace [3.0],
    neuropil trace [1.0] and ratio [1.0] it is [2.0], which is neither of
    the fetched traces.  The notebook does not only forward what the
    external calls return. *)
Lemma correction_is_not_forwarded :
  Cell29.correction [3]%float [1]%float 1%float = Ok [2]%float
  ∧ [2]%float ≠ [3]%float
  ∧ [2]%float ≠ [1]%float.
Proof.
  split; [reflexivity|]. split.
  - intros H. assert (2 = 3)%float as H' by congruence.
    by apply (float_neq_by_lt 2 3 2.5) in H'.
  - intros H. assert (1 = 2)%float as H' by congruence.
    by apply (float_neq_by_lt 1 2 1.5) in H'.
Qed.

(** ** Cell 17 and the catalogue: one container per record *)

Lemma unique_from_spec (seen : gset Z) (l : list Z) :
  NoDup (Pd.unique_from seen l)
  ∧ ∀ x, x ∈ Pd.unique_from seen l ↔ x ∈ l ∧ x ∉ seen.
Proof.
  revert seen. induction l as [|y l IH]; intros seen; cbn.
  { split; [constructor|]. intros x. rewrite elem_of_nil. tauto. }
  case_decide as Hy.
  - destruct (IH seen) as [Hnd Hin]. split; [done|].
    intros x. rewrite Hin, elem_of_cons.
    split; [tauto|]. intros [[->|Hx] Hns]; [done | tauto].
  - destruct (IH ({[y]} ∪ seen)) as [Hnd Hin]. split.
    + constructor; [|done]. rewrite Hin. set_solver.
    + intros x. rewrite !elem_of_cons, Hin.
      destruct (decide (x = y)) as [->|Hne]; set_solver.
Qed.

Lemma unique_spec (s : Pd.Series Z) :
  NoDup (Pd.unique s) ∧ ∀ x, x ∈ Pd.unique s ↔ x ∈ s.*2.
Proof.
  destruct (unique_from_spec ∅ (s.*2)) as [Hnd Hin].
  split; [done|]. intros x. unfold Pd.unique. rewrite Hin. set_solver.
Qed.

(** C6.  One container per record.  In the catalogue as the spec describes
    it, every experiment returned for the single container id [c] has [c] as
    its container, so no experiment is returned for two different
    containers.  In the notebook, every cell-specimen row carries one
    [experiment_container_id]; the ids [unique()] returns in cell 17 are
    pairwise distinct, each is the id of some direction-selective cell and
    of a VISp container, and every direction-selective cell falls under
    exactly one entry of that list. *)
Theorem one_container_per_record (db : Sdk.catalogue)
    (cell_specimens : list CellSpecimen.t) (visp_ecs : list Container.t) :
  let dsi_cells := Cell15.dsi_cells (Cell15.run cell_specimens visp_ecs) in
  let ids := dsi_ec_ids dsi_cells in
  (∀ c stimuli e, e ∈ Sdk.ophys_experiments db [c] stimuli →
                  Experiment.experiment_container_id e = c)
  ∧ (∀ c c' stimuli stimuli' e,
       e ∈ Sdk.ophys_experiments db [c] stimuli →
       e ∈ Sdk.ophys_experiments db [c'] stimuli' → c = c')
  ∧ NoDup ids
  ∧ (∀ x, x ∈ dsi_cells →
       ∃ k, ids !! k = Some (CellSpecimen.experiment_container_id x.2)
            ∧ ∀ k', ids !! k'
                    = Some (CellSpecimen.experiment_container_id x.2) →
                    k' = k)
  ∧ (∀ c, c ∈ ids →
       (∃ x, x ∈ dsi_cells ∧ CellSpecimen.experiment_container_id x.2 = c)
       ∧ c ∈ Container.id <$> visp_ecs).
Proof.
  intros dsi_cells ids.
  assert (∀ c stimuli e, e ∈ Sdk.ophys_experiments db [c] stimuli →
                         Experiment.experiment_container_id e = c) as Hparent.
  { intros c stimuli e. unfold Sdk.ophys_experiments.
    rewrite elem_of_bool_filter, andb_true_iff, bool_decide_eq_true.
    intros (_ & Hin & _). by apply list_elem_of_singleton in Hin. }
  destruct (unique_spec (Pd.column CellSpecimen.experiment_container_id dsi_cells))
    as [Hnd Hin].
  fold (dsi_ec_ids dsi_cells) in Hnd, Hin. fold ids in Hnd, Hin.
  assert (∀ c, c ∈ ids ↔
            ∃ x, x ∈ dsi_cells ∧ CellSpecimen.experiment_container_id x.2 = c)
    as Hids.
  { intros c. rewrite Hin. unfold Pd.column.
    rewrite <- list_fmap_compose, list_elem_of_fmap. naive_solver. }
  split_and!; [done | | done | |].
  - intros c c' st st' e He He'.
    by rewrite <- (Hparent _ _ _ He), <- (Hparent _ _ _ He').
  - intros x Hx.
    assert (CellSpecimen.experiment_container_id x.2 ∈ ids) as Hc.
    { apply Hids. by exists x. }
    apply list_elem_of_lookup in Hc as [k Hk]. exists k. split; [done|].
    intros k' Hk'. eapply NoDup_lookup; eauto.
  - intros c Hc. split; [by apply Hids|].
    apply Hids in Hc as (x & Hx & <-).
    by apply cell15_dsi_rows in Hx as (_ & ? & _).
Qed.

(** ** The experiment data a run asks for *)

Lemma fetched_app tr1 tr2 : fetched (tr1 ++ tr2) = fetched tr1 ++ fetched tr2.
Proof. apply omap_app. Qed.

Lemma fetched_nil_app tr1 tr2 :
  fetched tr1 = [] → fetched tr2 = [] → fetched (tr1 ++ tr2) = [].
Proof. intros H1 H2. by rewrite fetched_app, H1, H2. Qed.

(** Every run of the notebook that reaches the end has asked for the
    experiment data of these ids, in this order: the experiment of cell 11,
    the experiment of cell 19, and the five literal ids of cells 24 to 38. *)
Lemma notebook_fetch_sequence :
  wp Notebook.notebook (on_ok (λ _ tr, ∃ e1 e2,
    (fetched tr).*1
    = [e1; e2; 510221121; 512326618; 510221121; 501940850; 501940850]%Z)).
Proof.
  unfold_notebook.
  wp_walk (λ tr, fetched tr = []) (eq_refl (A:=list (Z * DataSet)) [])
    fetched_nil_app.
  all: cbn beta in *; cbn [fetched omap list_omap].
  - match goal with |- context [omap ?f (?a ++ ?b)] =>
      change (omap f (a ++ b)) with (fetched (a ++ b)) end.
    rewrite !fetched_app.
    match goal with H : fetched _ = [] |- _ => rewrite H end.
    cbn. eauto.
  - reflexivity.
Qed.

(** ** The download cache *)

Section CacheRuns.
Variable remote : Z → DataSet.
Variable sdk : ∀ t, call t → answer_of t.

(** What a request for [id] is answered with in the state [st]. *)
Let served (st : Cache.state) (id : Z) : DataSet :=
  default (remote id) (Cache.files st !! id).

Lemma fetch_served id st : (Cache.fetch remote id st).1 = served st id.
Proof.
  unfold Cache.fetch, served. by destruct (Cache.files st !! id).
Qed.

Lemma fetch_keeps_served id st id' :
  served (Cache.fetch remote id st).2 id' = served st id'.
Proof.
  unfold Cache.fetch, served.
  destruct (Cache.files st !! id) eqn:Hid; cbn; [done|].
  destruct (decide (id' = id)) as [->|Hne].
  - by rewrite lookup_insert_eq, Hid.
  - by rewrite lookup_insert_ne.
Qed.

(** A second request for the same id is answered with the same data set
    and changes nothing: no second download. *)
Lemma fetch_twice id st :
  Cache.fetch remote id (Cache.fetch remote id st).2
  = ((Cache.fetch remote id st).1, (Cache.fetch remote id st).2).
Proof.
  unfold Cache.fetch.
  destruct (Cache.files st !! id) eqn:Hid; cbn.
  - by rewrite Hid.
  - by rewrite lookup_insert_eq.
Qed.

(** Every request of a run is answered with what the starting state
    serves for its id. *)
Lemma run_cache_fetched {A} (p : prog A) st id d :
  (id, d) ∈ fetched (trace (run (Cache.handle remote sdk) st p)) →
  d = served st id.
Proof.
  revert st. induction p as [a|e|t c k IH|o k IH|X l k IH]; intros st; cbn.
  - by intros ?%elem_of_nil.
  - by intros ?%elem_of_nil.
  - destruct c; cbn; try apply IH.
    rewrite (surjective_pairing (Cache.fetch remote _ st)). cbn.
    intros [[= -> ->]|Hin]%elem_of_cons.
    + apply fetch_served.
    + rewrite (IH _ _ Hin). apply fetch_keeps_served.
  - apply IH.
  - destruct l as [|x l]; cbn; [by intros ?%elem_of_nil | apply IH].
Qed.

(** The downloads of a run: one per requested id that was not stored at
    the start, none twice. *)
Lemma run_cache_downloads {A} (p : prog A) st :
  let r := run (Cache.handle remote sdk) st p in
  ∃ new,
    Cache.downloads (final r) = new ++ Cache.downloads st
    ∧ NoDup new
    ∧ (∀ id, id ∈ new ↔
         id ∈ (fetched (trace r)).*1 ∧ Cache.files st !! id = None)
    ∧ (∀ id, Cache.files (final r) !! id = None ↔
         Cache.files st !! id = None ∧ id ∉ new).
Proof.
  revert st. induction p as [a|e|t c k IH|o k IH|X l k IH]; intros st;
    cbn zeta.
  - exists []. cbn. split_and!; [done | constructor | set_solver | set_solver].
  - exists []. cbn. split_and!; [done | constructor | set_solver | set_solver].
  - destruct c; cbn -[fetched];
      try (change (fetched (_ :: ?tr)) with (fetched tr); apply IH).
    rewrite (surjective_pairing (Cache.fetch remote _ st)).
    cbn -[fetched Cache.fetch].
    change (fetched (EvCall (get_ophys_experiment_data ?id) ?d :: ?tr))
      with ((id, d) :: fetched tr).
    unfold Cache.fetch.
    destruct (Cache.files st !! ophys_experiment_id) as [d|] eqn:Hid;
      cbn -[fetched].
    + destruct (IH d st) as (new & Hd & Hnd & Hnew & Hfiles).
      exists new. cbn zeta in *. split_and!; [done | done | |done].
      intros id. rewrite Hnew, ?fmap_cons, elem_of_cons. cbn -[fetched].
      split; [tauto|]. intros [[->|?] ?]; [congruence | tauto].
    + set (st1 := Cache.mk _ _).
      destruct (IH (remote ophys_experiment_id) st1)
        as (new & Hd & Hnd & Hnew & Hfiles).
      cbn zeta in *. subst st1. cbn -[fetched] in *.
      assert (ophys_experiment_id ∉ new) as Hfresh.
      { rewrite Hnew, lookup_insert_eq. by intros [_ ?]. }
      exists (new ++ [ophys_experiment_id]). split_and!.
      * by rewrite Hd, <- app_assoc.
      * apply NoDup_app. split_and!; [done | | apply NoDup_singleton].
        intros id Hin ->%list_elem_of_singleton. done.
      * intros id. rewrite elem_of_app, list_elem_of_singleton, Hnew.
        rewrite ?fmap_cons, elem_of_cons. cbn -[fetched].
        destruct (decide (id = ophys_experiment_id)) as [->|Hne].
        -- rewrite lookup_insert_eq. naive_solver.
        -- rewrite lookup_insert_ne by done. naive_solver.
      * intros id. rewrite Hfiles, elem_of_app, list_elem_of_singleton.
        destruct (decide (id = ophys_experiment_id)) as [->|Hne].
        -- rewrite lookup_insert_eq. naive_solver.
        -- rewrite lookup_insert_ne by done. naive_solver.
  - apply IH.
  - destruct l as [|x l]; cbn -[fetched]; [|apply IH].
    exists []. cbn. split_and!; [done | constructor | set_solver | set_solver].
Qed.
End CacheRuns.

(** C4.  Against the download cache as the spec describes it, from any
    state [st] of the local storage: a second request for an experiment id
    returns the data of the first and leaves the storage and the download
    log as they are; in a run of the notebook all requests for one id
    return the same data set; the run downloads each requested id at most
    once, and only if it was not stored before; and a run that reaches the
    end requests 510221121 twice and 501940850 twice (cells 24 and 29, 36
    and 38), so each second request is served from the storage. *)
Theorem experiment_data_is_fetched_once
    (remote : Z → DataSet) (sdk : ∀ t, call t → answer_of t)
    (st : Cache.state) :
  let r := run (Cache.handle remote sdk) st Notebook.notebook in
  (∀ id st0,
     let first_call := Cache.fetch remote id st0 in
     Cache.fetch remote id first_call.2 = (first_call.1, first_call.2))
  ∧ (∀ id d1 d2, (id, d1) ∈ fetched (trace r) →
                 (id, d2) ∈ fetched (trace r) → d1 = d2)
  ∧ (∃ new,
       Cache.downloads (final r) = new ++ Cache.downloads st
       ∧ NoDup new
       ∧ ∀ id, id ∈ new ↔
           id ∈ (fetched (trace r)).*1 ∧ Cache.files st !! id = None)
  ∧ (outcome r = Ok tt →
     ∃ e1 e2, (fetched (trace r)).*1
       = [e1; e2; 510221121; 512326618; 510221121; 501940850; 501940850]%Z).
Proof.
  intros r. split_and!.
  - intros id st0. apply fetch_twice.
  - intros id d1 d2 H1 H2.
    rewrite (run_cache_fetched remote sdk _ _ _ _ H1).
    by rewrite (run_cache_fetched remote sdk _ _ _ _ H2).
  - destruct (run_cache_downloads remote sdk Notebook.notebook st)
      as (new & Hd & Hnd & Hnew & _).
    by exists new.
  - intros Hout.
    by apply (wp_sound_ok _ _ _ _ _ notebook_fetch_sequence Hout).
Qed.

(** The demo observatory behind a fresh cache: seven requests, four
    downloads. *)
Example demo_cache_run :
  let r := run (Cache.handle Demo.data_set Demo.sdk) Cache.empty
               Notebook.notebook in
  outcome r = Ok tt
  ∧ (fetched (trace r)).*1
    = [501559087; 501940850; 510221121; 512326618; 510221121; 501940850;
       501940850]%Z
  ∧ Cache.downloads (final r) = [512326618; 510221121; 501940850; 501559087]%Z.
Proof. vm_compute. done. Qed.

(** ** The store: what the cells write *)

Section StoreRules.
Import Store.
Context {A B : Type}.
Implicit Types (h : store) (l : loc) (o : obj).







End StoreRules.

Section StoreOperations.
Import Store.
Implicit Types (h : store) (l : loc).







End StoreOperations.


Section StoreCells.
Import Store.
Implicit Types (h : store) (l : loc).






End StoreCells.



(** ** What the notebook forwards and what it computes *)

Lemma notebook_external_and_own :
  wp Notebook.notebook (on_ok (λ _ tr,
    (∃ raw0 neuropil0 res correction,
       EvCall (estimate_contamination_ratios raw0 neuropil0) res ∈ tr
       ∧ EvOut (Print "r = %f" [VFloat (Contamination.r res)]) ∈ tr
       ∧ EvOut (Print "max error = %f" [VFloat (Contamination.err res)]) ∈ tr
       ∧ Cell29.correction raw0 neuropil0 (Contamination.r res)
         = Ok correction)
    ∧ (∃ corrected_traces dff dff0 time,
         EvCall (compute_dff corrected_traces) dff ∈ tr
         ∧ dff !! 0 = Some dff0
         ∧ EvOut (Plot time dff0) ∈ tr)
    ∧ (∃ data_set all_roi_masks sum_mask ax,
         EvCall (get_roi_mask data_set None) all_roi_masks ∈ tr
         ∧ Cell24.sum_mask (MOVIE_FOV_PX data_set) all_roi_masks = Ok sum_mask
         ∧ EvOut (Imshow ax (ImFloat sum_mask) None) ∈ tr)
    ∧ (∃ data_set dg os ds max_count,
         EvCall (drifting_gratings data_set) dg ∈ tr
         ∧ Cell27.histograms dg = Ok (os, ds)
         ∧ EvOut (Imshow 0 (ImInt ds) (Some (0%Z, max_count))) ∈ tr
         ∧ EvOut (Imshow 1 (ImInt os) (Some (0%Z, max_count))) ∈ tr))).
Proof.
  unfold_notebook.
  wp_walk (λ _ : list event, True) I (λ (_ _ : list event) (_ _ : True), I).
  split_and!.
  - do 4 eexists. split_and!; [find_event | find_event | find_event |].
    eassumption.
  - do 4 eexists. split_and!; [find_event | reflexivity | find_event].
  - do 4 eexists. split_and!; [find_event | eassumption | find_event].
  - do 5 eexists. split_and!; [find_event | eassumption | find_event..].
Qed.

(** C2, as the code has it.  In every run of the notebook that reaches the
    end: the contamination ratio, the dF/F traces, the ROI masks and the
    drifting-gratings analysis come from calls into the SDK, and [r], [err]
    and the first dF/F trace are shown as returned.  But the notebook also
    computes on what it fetched: [correction] is, sample by sample, the raw
    trace minus [r] times the neuropil trace; the image "all ROIs" is the
    union mask of cell 24 over the fetched masks; and the two histogram
    images are the counts of cell 27 over the fetched table. *)
Theorem external_calls_and_own_arithmetic {St} (h : handler St) (s : St) :
  let tr := trace (run h s Notebook.notebook) in
  outcome (run h s Notebook.notebook) = Ok tt →
  (∃ raw0 neuropil0 res correction,
     EvCall (estimate_contamination_ratios raw0 neuropil0) res ∈ tr
     ∧ EvOut (Print "r = %f" [VFloat (Contamination.r res)]) ∈ tr
     ∧ EvOut (Print "max error = %f" [VFloat (Contamination.err res)]) ∈ tr
     ∧ Cell29.correction raw0 neuropil0 (Contamination.r res) = Ok correction
     ∧ (length raw0 = length neuropil0 →
        ∀ t x n, raw0 !! t = Some x → neuropil0 !! t = Some n →
          correction !! t
          = Some (PrimFloat.sub x (PrimFloat.mul (Contamination.r res) n))))
  ∧ (∃ corrected_traces dff dff0 time,
       EvCall (compute_dff corrected_traces) dff ∈ tr
       ∧ dff !! 0 = Some dff0
       ∧ EvOut (Plot time dff0) ∈ tr)
  ∧ (∃ data_set all_roi_masks sum_mask ax,
       EvCall (get_roi_mask data_set None) all_roi_masks ∈ tr
       ∧ Cell24.sum_mask (MOVIE_FOV_PX data_set) all_roi_masks = Ok sum_mask
       ∧ EvOut (Imshow ax (ImFloat sum_mask) None) ∈ tr)
  ∧ (∃ data_set dg os ds max_count,
       EvCall (drifting_gratings data_set) dg ∈ tr
       ∧ Cell27.histograms dg = Ok (os, ds)
       ∧ EvOut (Imshow 0 (ImInt ds) (Some (0%Z, max_count))) ∈ tr
       ∧ EvOut (Imshow 1 (ImInt os) (Some (0%Z, max_count))) ∈ tr).
Proof.
  intros tr Hout.
  destruct (wp_sound_ok h _ _ s tt notebook_external_and_own Hout)
    as ((raw0 & neuropil0 & res & c & H1 & H2 & H3 & Hc) & Hdff & Hmask & Hdg).
  split_and!; [|done..].
  exists raw0, neuropil0, res, c. split_and!; [done..|].
  intros Hlen. by apply correction_pointwise.
Qed.

(** The demo run: the subtraction of cell 29 is computed on the traces the
    demo observatory returns. *)
Lemma external_calls_and_own_arithmetic_witness :
  ∃ raw0 neuropil0 res correction,
    EvCall (estimate_contamination_ratios raw0 neuropil0) res
      ∈ trace (run (stateless Demo.sdk) tt Notebook.notebook)
    ∧ Cell29.correction raw0 neuropil0 (Contamination.r res) = Ok correction.
Proof.
  destruct (external_calls_and_own_arithmetic (stateless Demo.sdk) tt)
    as ((raw0 & neuropil0 & res & c & H1 & _ & _ & Hc & _) & _).
  - vm_compute. reflexivity.
  - exists raw0, neuropil0, res, c. split; [exact H1 | exact Hc].
Defined.

Example demo_correction :
  Cell29.correction [3; 4; 5]%float [1.5; 2; 2.5]%float 0.5%float
  = Ok [2.25; 3; 3.75]%float.
Proof. reflexivity. Qed.

(** * Part VI: further properties of the cells *)

(** ** Cell 24: the cells shown and the panels they are shown in *)

Lemma strided_from_lookup {A} (skip step : nat) (l : list A) k :
  0 < step →
  Py.strided_from skip step l !! k = l !! (skip + k * step).
Proof.
  intros Hstep. revert skip k.
  induction l as [|x l IH]; intros skip k; [by destruct skip|].
  destruct skip as [|skip]; cbn.
  - destruct k as [|k]; [done|]. cbn. rewrite IH.
    replace (step + k * step) with (S (step - 1 + k * step)) by lia. done.
  - by rewrite IH.
Qed.

(** X1.  Cell 24, [cids = data_set.get_cell_specimen_ids()[:15:5]]: the
    slice never fails; it holds the ids at the positions 0, 5 and 10, as far
    as they exist, so at most three ids, and at least one as soon as the
    data set has a cell. *)
Theorem cell24_cids_are_ids_0_5_10 (ids : list Z) :
  let cids := Py.slice_to_step ids 15 5 in
  (∀ k, cids !! k = if decide (k < 3) then ids !! (5 * k) else None)
  ∧ length cids = Nat.min 3 ((length ids + 4) `div` 5)
  ∧ (ids ≠ [] → cids ≠ []).
Proof.
  intros cids.
  assert (∀ k, cids !! k = if decide (k < 3) then ids !! (5 * k) else None)
    as Hlookup.
  { intros k. unfold cids, Py.slice_to_step, Py.slice_to.
    rewrite strided_from_lookup by lia.
    change 15%Z with (Z.of_nat 15). rewrite slice_stop_len.
    replace (0 + k * 5) with (5 * k) by lia.
    rewrite lookup_take. repeat case_decide; try done; try lia.
    symmetry. apply lookup_ge_None. lia. }
  assert (∀ k, k < length cids ↔ k < 3 ∧ 5 * k < length ids) as Hlt.
  { intros k. rewrite <- lookup_lt_is_Some, Hlookup.
    case_decide; [rewrite lookup_lt_is_Some; lia|].
    split; [by intros [? ?] | lia]. }
  split; [done|]. split.
  - pose proof (Hlt (length cids)) as H1.
    pose proof (Hlt (length cids - 1)) as H2.
    pose proof (Nat.div_mod_eq (length ids + 4) 5) as Hdiv.
    pose proof (Nat.mod_upper_bound (length ids + 4) 5) as Hmod.
    lia.
  - intros Hids Hcids.
    assert (0 < length cids) as H0.
    { apply Hlt. destruct ids; [done | cbn; lia]. }
    rewrite Hcids in H0. cbn in H0. lia.
Qed.

Lemma getitem_seq_from_end (n k : nat) :
  0 < k ≤ n → Py.getitem (seq 0 n) (- Z.of_nat k) = Ok (n - k).
Proof.
  intros Hk. unfold Py.getitem. rewrite length_seq.
  destruct (Z.ltb_spec (- Z.of_nat k) 0) as [_|]; [|lia].
  rewrite decide_True by lia.
  replace (Z.to_nat (Z.of_nat n + - Z.of_nat k)) with (n - k) by lia.
  rewrite lookup_seq_lt by lia. done.
Qed.

(** X2.  Cell 24, the panels.  [plt.subplots(1, len(cids)+2)] always makes
    at least two axes, so [axes] is an array; [axes[:-2]] are the first
    [len(cids)] of them, [axes[-2]] and [axes[-1]] are the two after those
    and never raise.  The loop runs once for each id that a mask came back
    for, and its k-th round draws the k-th mask in panel k under the k-th
    id: no mask is drawn over the panel of all ROIs or of the maximum
    projection. *)
Theorem cell24_panels (cids : list Z) (roi_mask_list : list RoiMask) :
  let axes := seq 0 (length cids + 2) in
  let rounds := Notebook.zip3 (Py.slice_to axes (-2)) roi_mask_list cids in
  Py.slice_to axes (-2) = seq 0 (length cids)
  ∧ Py.getitem axes (-2) = Ok (length cids)
  ∧ Py.getitem axes (-1) = Ok (length cids + 1)
  ∧ length rounds = Nat.min (length cids) (length roi_mask_list)
  ∧ ∀ k ax roi_mask cid,
      rounds !! k = Some (ax, roi_mask, cid) ↔
        ax = k ∧ roi_mask_list !! k = Some roi_mask ∧ cids !! k = Some cid.
Proof.
  intros axes rounds.
  assert (Py.slice_to axes (-2) = seq 0 (length cids)) as Hslice.
  { unfold Py.slice_to, Py.slice_stop, axes. rewrite length_seq.
    destruct (Z.ltb_spec (-2) 0) as [_|]; [|lia].
    replace (Z.to_nat (Z.max 0 (Z.of_nat (length cids + 2) + -2)))
      with (length cids) by lia.
    by rewrite take_seq, Nat.min_l by lia. }
  split_and!.
  - done.
  - unfold axes. change (-2)%Z with (- Z.of_nat 2)%Z.
    rewrite getitem_seq_from_end by lia. f_equal. lia.
  - unfold axes. change (-1)%Z with (- Z.of_nat 1)%Z.
    rewrite getitem_seq_from_end by lia. f_equal. lia.
  - unfold rounds. cbv [Notebook.zip3]. rewrite Hslice.
    rewrite !length_zip_with, length_seq. lia.
  - intros k ax roi_mask cid. unfold rounds. cbv [Notebook.zip3].
    rewrite Hslice, lookup_zip_with_Some. split.
    + intros ([ax' m'] & cid' & [= -> -> ->] & Hk & Hcid).
      apply lookup_zip_with_Some in Hk as (a & m & [= -> ->] & Ha & Hm).
      apply lookup_seq in Ha as [-> _]. done.
    + intros (-> & Hm & Hcid). exists (k, roi_mask), cid.
      split_and!; [done | | done].
      apply lookup_zip_with_Some. exists k, roi_mask. split_and!; [done | | done].
      apply lookup_seq. split; [done|]. by apply lookup_lt_Some in Hcid.
Qed.

(** ** Cell 22: when the three plots succeed *)

(** X3.  Cell 22 with at least one trace of each kind: the cell completes
    exactly when the raw and the corrected trace have the length of the time
    stamps and the dF/F trace is not longer than the time stamps.  The
    slice [time[:len(dff_traces[0])]] repairs a shorter dF/F trace only: a
    longer one makes [plt.plot] raise [ValueError]. *)
Theorem cell22_completes_iff {St} (h : handler St) (s : St)
    (time raw0 corrected0 dff0 : list float)
    (raw_traces corrected_traces dff_traces : list (list float)) :
  outcome (run h s (Notebook.cell_22 time (raw0 :: raw_traces)
                      (corrected0 :: corrected_traces) (dff0 :: dff_traces)))
  = if decide (length raw0 = length time ∧ length corrected0 = length time
               ∧ length dff0 ≤ length time)
    then Ok tt else Raised ValueError.
Proof.
  pose proof (dff_len := slice_to_length time (Py.len dff0)).
  unfold Py.len in dff_len. rewrite slice_stop_len in dff_len.
  unfold Notebook.cell_22, plot.
  unfold mbind, prog_bind, mret, prog_ret, emit, first. cbn.
  destruct (decide (length time = length raw0)); cbn;
    [|rewrite decide_False by lia; done].
  destruct (decide (length time = length corrected0)); cbn;
    [|rewrite decide_False by lia; done].
  unfold Py.len.
  destruct (decide (length (Py.slice_to time (Z.of_nat (length dff0)))
                    = length dff0));
    cbn; [rewrite decide_True by lia | rewrite decide_False by lia]; done.
Qed.

(** ** Cell 33: the dF/F trace computed by [compute_dff] *)

(** X4.  Cell 33 plots [dff[0,:]] against [time] without the slice of
    cell 22.  Whatever [compute_dff] returns: with no row the subscript
    raises [IndexError]; with a first row as long as the time stamps the
    cell completes; with a first row of any other length, one element
    shorter included, [plt.plot] raises [ValueError]. *)
Theorem cell33_needs_equal_lengths {St} (h : handler St) (s : St)
    (time : list float) (corrected_traces : list (list float)) :
  outcome (run h s (Notebook.cell_33 time corrected_traces))
  = match (h _ (compute_dff corrected_traces) s).1 with
    | [] => Raised (IndexError EmptySequence)
    | dff0 :: _ =>
        if decide (length time = length dff0) then Ok tt
        else Raised ValueError
    end.
Proof.
  unfold Notebook.cell_33, plot.
  unfold mbind, prog_bind, mret, prog_ret, emit, first, call_sdk. cbn.
  destruct (h KMatrix (compute_dff corrected_traces) s) as [[|dff0 dff] s'];
    cbn; [done|].
  by destruct (decide (length time = length dff0)).
Qed.

(** ** Cells 15 to 19: which cell is picked, and under which labels *)




Lemma elem_of_from_records {R} (l : list R) i r :
  (i, r) ∈ Pd.from_records l ↔ (0 ≤ i)%Z ∧ l !! Z.to_nat i = Some r.
Proof.
  unfold Pd.from_records. rewrite elem_of_lookup_imap. split.
  - intros (k & y & [= -> ->] & Hk). split; [lia|]. by rewrite Nat2Z.id.
  - intros [Hi Hr]. exists (Z.to_nat i), r. split; [|done].
    f_equal. lia.
Qed.



Lemma StronglySorted_sublist {X} (R : X → X → Prop) (l' l : list X) :
  l' `sublist_of` l → StronglySorted R l → StronglySorted R l'.
Proof.
  induction 1 as [|x l1 l2 Hsub IH|x l1 l2 Hsub IH];
    rewrite ?StronglySorted_cons; [done| |].
  - intros [Hx Hl]. split; [|by apply IH].
    apply Forall_forall. intros y Hy. rewrite Forall_forall in Hx.
    apply Hx. by eapply elem_of_sublist.
  - intros [_ Hl]. by apply IH.
Qed.

Lemma from_records_labels_sorted {R} (l : list R) :
  StronglySorted Z.lt (Pd.from_records l).*1.
Proof.
  rewrite from_records_labels. generalize 0.
  induction (length l) as [|n IH]; intros a; cbn; [constructor|].
  apply StronglySorted_cons. split; [|apply IH].
  apply Forall_fmap, Forall_seq. intros j Hj. cbn. lia.
Qed.

(** X6.  Cell 15 keeps the pandas index: in [cells] and in each of the three
    filtered frames, the row under the label [i] is the [i]-th record the
    SDK returned, and the labels are strictly increasing, so no row is
    repeated and no two rows share a label. *)
Theorem cell15_frames_keep_labels
    (cell_specimens : list CellSpecimen.t) (visp_ecs : list Container.t) :
  let o := Cell15.run cell_specimens visp_ecs in
  let keeps_labels (frame : Pd.DataFrame CellSpecimen.t) :=
    (∀ i r, (i, r) ∈ frame →
            (0 ≤ i)%Z ∧ cell_specimens !! Z.to_nat i = Some r)
    ∧ StronglySorted Z.lt frame.*1 in
  keeps_labels (Cell15.cells o) ∧ keeps_labels (Cell15.visp_cells o)
  ∧ keeps_labels (Cell15.sig_cells o) ∧ keeps_labels (Cell15.dsi_cells o).
Proof.
  intros o keeps_labels.
  destruct (cell15_as_filters cell_specimens visp_ecs) as (Hc & Hv & Hs & Hd).
  fold o in Hc, Hv, Hs, Hd.
  assert (∀ frame, frame `sublist_of` Cell15.cells o → keeps_labels frame)
    as Hsub.
  { intros frame Hframe. split.
    - intros i r Hin. apply elem_of_from_records. rewrite <- Hc.
      by eapply elem_of_sublist.
    - eapply StronglySorted_sublist; [by apply fmap_sublist|].
      rewrite Hc. apply from_records_labels_sorted. }
  assert (Cell15.visp_cells o `sublist_of` Cell15.cells o) as Hv'.
  { rewrite Hv. apply bool_filter_sublist. }
  assert (Cell15.sig_cells o `sublist_of` Cell15.cells o) as Hs'.
  { etrans; [|exact Hv']. rewrite Hs. apply bool_filter_sublist. }
  assert (Cell15.dsi_cells o `sublist_of` Cell15.cells o) as Hd'.
  { etrans; [|exact Hs']. rewrite Hd. apply bool_filter_sublist. }
  split_and!; by apply Hsub.
Qed.

(** ** Cell 17: [unique()] *)

Lemma unique_from_sublist (seen : gset Z) (l : list Z) :
  Pd.unique_from seen l `sublist_of` l.
Proof.
  revert seen. induction l as [|x l IH]; intros seen; cbn; [done|].
  case_decide; by constructor.
Qed.

Lemma unique_from_first_appearance (seen : gset Z) (l : list Z) i j c d :
  Pd.unique_from seen l !! i = Some c →
  Pd.unique_from seen l !! j = Some d →
  i < j →
  ∃ k, l !! k = Some c ∧ ∀ k', l !! k' = Some d → k < k'.
Proof.
  revert seen i j. induction l as [|y l IH]; intros seen i j; cbn; [done|].
  case_decide as Hy.
  - intros Hc Hd Hij. destruct (IH seen i j Hc Hd Hij) as (k & Hk & Hmin).
    exists (S k). split; [done|]. intros [|k'] Hk'; [|apply Hmin in Hk'; lia].
    cbn in Hk'. injection Hk' as ->.
    apply list_elem_of_lookup_2, unique_from_spec in Hd. tauto.
  - destruct i as [|i]; destruct j as [|j]; cbn; try lia.
    + intros [= ->] Hd _. exists 0. split; [done|].
      intros [|k'] Hk'; [|lia]. cbn in Hk'. injection Hk' as ->.
      apply list_elem_of_lookup_2, unique_from_spec in Hd. set_solver.
    + intros Hc Hd Hij.
      destruct (IH ({[y]} ∪ seen) i j Hc Hd ltac:(lia)) as (k & Hk & Hmin).
      exists (S k). split; [done|].
      intros [|k'] Hk'; [|apply Hmin in Hk'; lia].
      cbn in Hk'. injection Hk' as ->.
      apply list_elem_of_lookup_2, unique_from_spec in Hd. set_solver.
Qed.

(** X7.  Cell 17, [dsi_ec_ids = dsi_cells['experiment_container_id']
    .unique()]: the ids come in the order in which the containers first
    appear in [dsi_cells].  So the list is a sub-sequence of the column, it
    is empty exactly when [dsi_cells] is, its first id is the container of
    [dsi_cells.iloc[0]] (the container cell 19 asks for is the first one
    cell 17 asked for), and an id that stands before another one first
    occurs in the column before any occurrence of the other. *)
Theorem cell17_ids_in_order_of_first_appearance
    (dsi_cells : Pd.DataFrame CellSpecimen.t) :
  let column := Pd.column CellSpecimen.experiment_container_id dsi_cells in
  let ids := dsi_ec_ids dsi_cells in
  ids `sublist_of` column.*2
  ∧ (ids = [] ↔ dsi_cells = [])
  ∧ (∀ row, Py.first dsi_cells = Ok row →
            Py.first ids = Ok (CellSpecimen.experiment_container_id row.2))
  ∧ (∀ i j c d, ids !! i = Some c → ids !! j = Some d → i < j →
       ∃ k, column.*2 !! k = Some c
            ∧ ∀ k', column.*2 !! k' = Some d → k < k').
Proof.
  intros column ids. unfold ids, dsi_ec_ids, Pd.unique. fold column.
  split_and!.
  - apply unique_from_sublist.
  - unfold column, Pd.column. destruct dsi_cells as [|[i r] df]; [done|].
    cbn. rewrite decide_False by set_solver. done.
  - intros row. unfold column, Pd.column.
    destruct dsi_cells as [|[i r] df]; [done|].
    intros [= <-]. cbn. rewrite decide_False by set_solver. done.
  - intros i j c d. apply unique_from_first_appearance.
Qed.

(** ** Comparisons with NaN *)

Lemma SFcompare_refl (f : spec_float) :
  f ≠ S754_nan → SFcompare f f = Some Eq.
Proof.
  destruct f as [s|s| |s m e]; cbn; try done.
  - by destruct s.
  - intros _. rewrite Z.compare_refl, Pos.compare_cont_refl. by destruct s.
Qed.

Lemma is_nan_spec (x : float) : PrimFloat.is_nan x = true → Prim2SF x = S754_nan.
Proof.
  unfold PrimFloat.is_nan. rewrite FloatAxioms.eqb_spec. unfold SFeqb.
  destruct (Prim2SF x) as [s|s| |s m e] eqn:Hx; [| |done|];
    by rewrite SFcompare_refl.
Qed.

(** A comparison with NaN on either side is false. *)
Lemma nan_comparisons (x c : float) :
  PrimFloat.is_nan x = true →
  PrimFloat.ltb x c = false ∧ PrimFloat.ltb c x = false
  ∧ PrimFloat.leb x c = false.
Proof.
  intros Hx%is_nan_spec.
  rewrite !ltb_spec, leb_spec, Hx. unfold SFltb, SFleb.
  split_and!; [done | by destruct (Prim2SF c) | done].
Qed.

Lemma not_nan_if_compares (x c : float) :
  PrimFloat.ltb x c = true ∨ PrimFloat.ltb c x = true
  ∨ PrimFloat.leb x c = true →
  PrimFloat.is_nan x = false.
Proof.
  intros H. destruct (PrimFloat.is_nan x) eqn:Hx; [|done].
  destruct (nan_comparisons x c Hx) as (H1 & H2 & H3).
  rewrite H1, H2, H3 in H. naive_solver.
Qed.

(** X8.  A metric that is missing (NaN, as the cell-specimen table has it
    for a cell that was not shown the stimulus) never passes a threshold:
    no row of [sig_cells] has a NaN [p_dg], no row of [dsi_cells] of cell 15
    a NaN [p_dg] or [dsi_dg], and no row counted in the histograms of
    cell 27 a NaN in a column its selection reads. *)
Theorem missing_metrics_are_never_selected :
  (∀ cell_specimens visp_ecs x,
     let o := Cell15.run cell_specimens visp_ecs in
     (x ∈ Cell15.sig_cells o → PrimFloat.is_nan (CellSpecimen.p_dg x.2) = false)
     ∧ (x ∈ Cell15.dsi_cells o →
          PrimFloat.is_nan (CellSpecimen.p_dg x.2) = false
          ∧ PrimFloat.is_nan (CellSpecimen.dsi_dg x.2) = false))
  ∧ (∀ dg x,
       (x ∈ Pd.getitem_mask (peak dg) (Cell27.osi_cells dg) →
          PrimFloat.is_nan (Peak.ptest_dg x.2) = false
          ∧ PrimFloat.is_nan (Peak.peak_dff_dg x.2) = false
          ∧ PrimFloat.is_nan (Peak.osi_dg x.2) = false)
       ∧ (x ∈ Pd.getitem_mask (peak dg) (Cell27.dsi_cells dg) →
            PrimFloat.is_nan (Peak.ptest_dg x.2) = false
            ∧ PrimFloat.is_nan (Peak.peak_dff_dg x.2) = false
            ∧ PrimFloat.is_nan (Peak.dsi_dg x.2) = false)).
Proof.
  split.
  - intros cell_specimens visp_ecs x o.
    destruct (cell15_as_filters cell_specimens visp_ecs) as (_ & _ & Hs & Hd).
    fold o in Hs, Hd. split.
    + rewrite Hs, elem_of_bool_filter. intros [_ Hp].
      apply (not_nan_if_compares _ 0.05%float). auto.
    + rewrite Hd, elem_of_bool_filter, Hs, elem_of_bool_filter, andb_true_iff.
      intros ([_ Hp] & Hlo & Hhi). split.
      * apply (not_nan_if_compares _ 0.05%float). auto.
      * apply (not_nan_if_compares _ 1.5%float). auto.
  - intros dg x. destruct (cell27_rows_as_filters dg) as [Ho Hd].
    cbv zeta in Ho, Hd. rewrite Ho, Hd, !elem_of_bool_filter, !andb_true_iff.
    split; intros (_ & ((Hp & Hpeak) & Hlo) & Hhi); split_and!.
    + apply (not_nan_if_compares _ 0.05%float). auto.
    + apply (not_nan_if_compares _ 3%float). auto.
    + apply (not_nan_if_compares _ 1.5%float). auto.
    + apply (not_nan_if_compares _ 0.05%float). auto.
    + apply (not_nan_if_compares _ 3%float). auto.
    + apply (not_nan_if_compares _ 1.5%float). auto.
Qed.

(** ** Cell 27: the rows the histograms count *)

(** X9.  Cell 27: the loop for [os] visits exactly the rows of [dg.peak]
    with [ptest_dg < 0.05], [peak_dff_dg > 3] and [0.5 < osi_dg <= 1.5], the
    loop for [ds] exactly those with the same two first tests and
    [0.5 < dsi_dg <= 1.5]; both visit them in the order of [dg.peak], each
    row once. *)
Theorem cell27_selected_rows (dg : DriftingGratings) :
  let osi_rows := Pd.iterrows (Pd.getitem_mask (peak dg) (Cell27.osi_cells dg)) in
  let dsi_rows := Pd.iterrows (Pd.getitem_mask (peak dg) (Cell27.dsi_cells dg)) in
  let responsive (r : Peak.t) :=
    PrimFloat.ltb (Peak.ptest_dg r) 0.05%float = true
    ∧ PrimFloat.ltb 3%float (Peak.peak_dff_dg r) = true in
  (∀ x, x ∈ osi_rows ↔
          x ∈ peak dg ∧ responsive x.2
          ∧ PrimFloat.ltb 0.5%float (Peak.osi_dg x.2) = true
          ∧ PrimFloat.leb (Peak.osi_dg x.2) 1.5%float = true)
  ∧ (∀ x, x ∈ dsi_rows ↔
            x ∈ peak dg ∧ responsive x.2
            ∧ PrimFloat.ltb 0.5%float (Peak.dsi_dg x.2) = true
            ∧ PrimFloat.leb (Peak.dsi_dg x.2) 1.5%float = true)
  ∧ osi_rows `sublist_of` peak dg
  ∧ dsi_rows `sublist_of` peak dg.
Proof.
  intros osi_rows dsi_rows responsive. unfold osi_rows, dsi_rows, Pd.iterrows.
  destruct (cell27_rows_as_filters dg) as [Ho Hd].
  cbv zeta in Ho, Hd. rewrite Ho, Hd.
  split_and!; [| |apply bool_filter_sublist..];
    intros x; rewrite elem_of_bool_filter, !andb_true_iff;
    unfold responsive; tauto.
Qed.

(** ** Cell 24: when the accumulation of the masks fails, and what it
    depends on *)




(** Two well-formed arrays of one shape with the same entries are equal. *)
Lemma ndarray_ext {A} (a b : Np.ndarray A) :
  Np.wf a → Np.wf b → Np.shape a = Np.shape b →
  (∀ i j, i < (Np.shape a).1 → j < (Np.shape a).2 →
          Np.get a i j = Np.get b i j) →
  a = b.
Proof.
  destruct a as [sh ra], b as [sh' rb]. unfold Np.wf, Np.get. cbn.
  intros [Hla Hra] [Hlb Hrb] <- Hget. f_equal.
  apply list_eq. intros i.
  destruct (decide (i < sh.1)) as [Hi|Hi].
  - destruct (lookup_lt_is_Some_2 ra i) as [x Hx]; [lia|].
    destruct (lookup_lt_is_Some_2 rb i) as [y Hy]; [lia|].
    rewrite Hx, Hy. f_equal.
    rewrite Forall_lookup in Hra, Hrb.
    pose proof (Hra _ _ Hx) as Hlx. pose proof (Hrb _ _ Hy) as Hly.
    apply list_eq. intros j.
    destruct (decide (j < sh.2)) as [Hj|Hj].
    + specialize (Hget i j Hi Hj). by rewrite Hx, Hy in Hget.
    + rewrite !lookup_ge_None_2 by lia. done.
  - rewrite !lookup_ge_None_2 by lia. done.
Qed.

(** X11.  Cell 24: the combined mask depends only on which mask planes are
    in [all_roi_masks], not on their order and not on how often one
    occurs. *)
Theorem sum_mask_order_independent (MOVIE_FOV_PX : nat * nat)
    (masks1 masks2 : list RoiMask) :
  Cell24.planes_fit MOVIE_FOV_PX masks1 →
  (∀ m, m ∈ masks1 ↔ m ∈ masks2) →
  Cell24.sum_mask MOVIE_FOV_PX masks1 = Cell24.sum_mask MOVIE_FOV_PX masks2.
Proof.
  intros Hfit1 Hsame.
  assert (Cell24.planes_fit MOVIE_FOV_PX masks2) as Hfit2.
  { unfold Cell24.planes_fit in *. rewrite Forall_forall in *.
    intros m Hm. apply Hfit1, Hsame, Hm. }
  destruct (sum_mask_loop MOVIE_FOV_PX masks1 (Np.zeros 0%float MOVIE_FOV_PX))
    as (s1 & Hs1 & Hwf1 & Hsh1 & Hget1); [apply zeros_wf | done | done |].
  destruct (sum_mask_loop MOVIE_FOV_PX masks2 (Np.zeros 0%float MOVIE_FOV_PX))
    as (s2 & Hs2 & Hwf2 & Hsh2 & Hget2); [apply zeros_wf | done | done |].
  unfold Cell24.sum_mask. rewrite Hs1, Hs2. f_equal.
  apply ndarray_ext; [done | done | congruence |].
  rewrite Hsh1. intros i j Hi Hj. rewrite Hget1, Hget2 by done.
  assert (existsb (Cell24.positive_at i j) masks1
          = existsb (Cell24.positive_at i j) masks2) as ->; [|done].
  apply eq_true_iff_eq. rewrite !existsb_exists.
  setoid_rewrite <- list_elem_of_In. naive_solver.
Qed.

(** The masks of the demo observatory, in two orders and with a repeat. *)
Lemma sum_mask_order_independent_witness :
  Cell24.sum_mask (2, 3) Demo.masks
  = Cell24.sum_mask (2, 3) (reverse Demo.masks ++ Demo.masks).
Proof.
  apply sum_mask_order_independent.
  - repeat constructor.
  - intros m. rewrite elem_of_app, elem_of_reverse. tauto.
Defined.

(** ** Cell 27: every way the histogram loops can end *)

Lemma axis_index_outcome (n : nat) (i : Z) :
  match Np.axis_index n i with
  | Ok k =>
      k < n ∧ (- Z.of_nat n ≤ i < Z.of_nat n)%Z
      ∧ Z.of_nat k = (if (i <? 0)%Z then Z.of_nat n + i else i)%Z
  | Raised e =>
      e = IndexError OutOfBounds ∧ ¬ (- Z.of_nat n ≤ i < Z.of_nat n)%Z
  end.
Proof.
  unfold Np.axis_index. repeat case_decide.
  - destruct (Z.ltb_spec i 0); lia.
  - destruct (Z.ltb_spec i 0); lia.
  - split; [done | lia].
Qed.

(** [a[i, j] += d] with wrapping indices is the same statement with the
    indices they wrap to. *)
Lemma iadd_at_wraps (a : Np.ndarray Z) (i j d : Z) k1 k2 :
  Np.axis_index (Np.shape a).1 i = Ok k1 →
  Np.axis_index (Np.shape a).2 j = Ok k2 →
  Np.iadd_at a i j d = Np.iadd_at a (Z.of_nat k1) (Z.of_nat k2) d.
Proof.
  intros H1 H2.
  pose proof (axis_index_outcome (Np.shape a).1 i) as Hk1.
  pose proof (axis_index_outcome (Np.shape a).2 j) as Hk2.
  rewrite H1 in Hk1. rewrite H2 in Hk2.
  unfold Np.iadd_at. rewrite H1, H2. cbn.
  unfold Np.axis_index. rewrite !decide_True by lia. cbn.
  by rewrite !Nat2Z.id.
Qed.

Lemma iadd_at_outcome (a : Np.ndarray Z) (i j : Z) :
  Np.wf a →
  match Np.iadd_at a i j 1 with
  | Ok a' =>
      Np.wf a' ∧ Np.shape a' = Np.shape a ∧ Np.sum a' = (Np.sum a + 1)%Z
      ∧ (Np.nonnegative a → Np.nonnegative a')
      ∧ (- Z.of_nat (Np.shape a).1 ≤ i < Z.of_nat (Np.shape a).1)%Z
      ∧ (- Z.of_nat (Np.shape a).2 ≤ j < Z.of_nat (Np.shape a).2)%Z
  | Raised e =>
      e = IndexError OutOfBounds
      ∧ ¬ ((- Z.of_nat (Np.shape a).1 ≤ i < Z.of_nat (Np.shape a).1)%Z
           ∧ (- Z.of_nat (Np.shape a).2 ≤ j < Z.of_nat (Np.shape a).2)%Z)
  end.
Proof.
  intros Hwf.
  pose proof (axis_index_outcome (Np.shape a).1 i) as Hk1.
  pose proof (axis_index_outcome (Np.shape a).2 j) as Hk2.
  destruct (Np.axis_index (Np.shape a).1 i) as [k1|e1] eqn:H1.
  2:{ unfold Np.iadd_at. rewrite H1. cbn. split; [tauto | lia]. }
  destruct (Np.axis_index (Np.shape a).2 j) as [k2|e2] eqn:H2.
  2:{ unfold Np.iadd_at. rewrite H1, H2. cbn. split; [tauto | lia]. }
  rewrite (iadd_at_wraps a i j 1 k1 k2 H1 H2).
  destruct (iadd_at_spec a (Z.of_nat k1) (Z.of_nat k2) 1)
    as (a' & Ha' & Hsh & Hwf' & Hsum & _); [done | lia | lia |].
  rewrite Ha'. split_and!; [done | done | done | | lia..].
  unfold Np.iadd_at, Np.axis_index in Ha'.
  rewrite !decide_True in Ha' by lia. cbn in Ha'. injection Ha' as <-.
  unfold Np.nonnegative. cbn. intros Hnn.
  apply Forall_alter; [done|]. intros r _ Hr.
  apply Forall_alter; [done|]. intros v _ Hv. lia.
Qed.

(** A loop of cell 27 from any well-formed array: it finishes exactly when
    every row has indices numpy accepts for the shape of the array, and then
    has counted every row once. *)
Lemma fill_outcome (rows : list (Z * Peak.t)) (hist : Np.ndarray Z) :
  Np.wf hist →
  match for_each Cell27.body rows hist with
  | Ok h =>
      Np.wf h ∧ Np.shape h = Np.shape hist
      ∧ Np.sum h = (Np.sum hist + Z.of_nat (length rows))%Z
      ∧ (Np.nonnegative hist → Np.nonnegative h)
      ∧ Forall (λ x, (- Z.of_nat (Np.shape hist).1 ≤ Peak.ori_dg x.2
                        < Z.of_nat (Np.shape hist).1)%Z
                   ∧ (- Z.of_nat (Np.shape hist).2 ≤ Peak.tf_dg x.2 - 1
                        < Z.of_nat (Np.shape hist).2)%Z) rows
  | Raised e =>
      e = IndexError OutOfBounds
      ∧ ¬ Forall (λ x, (- Z.of_nat (Np.shape hist).1 ≤ Peak.ori_dg x.2
                          < Z.of_nat (Np.shape hist).1)%Z
                     ∧ (- Z.of_nat (Np.shape hist).2 ≤ Peak.tf_dg x.2 - 1
                          < Z.of_nat (Np.shape hist).2)%Z) rows
  end.
Proof.
  revert hist. induction rows as [|x rows IH]; intros hist Hwf.
  { cbn. split_and!; [done | done | lia | done | constructor]. }
  cbn [for_each].
  pose proof (iadd_at_outcome hist (Peak.ori_dg x.2) (Peak.tf_dg x.2 - 1) Hwf)
    as Hx.
  change (Cell27.body hist x)
    with (Np.iadd_at hist (Peak.ori_dg x.2) (Peak.tf_dg x.2 - 1) 1).
  destruct (Np.iadd_at _ _ _ _) as [h1|e]; cbn.
  - destruct Hx as (Hwf1 & Hsh1 & Hsum1 & Hnn1 & Hi & Hj).
    specialize (IH h1 Hwf1). rewrite Hsh1 in IH.
    destruct (for_each Cell27.body rows h1) as [h|e].
    + destruct IH as (Hwfh & Hsh & Hsum & Hnn & Hrows).
      split_and!; [done | done | cbn [length]; lia | auto |].
      by constructor.
    + destruct IH as [-> Hrows]. split; [done|].
      by intros [_ ?]%Forall_cons.
  - destruct Hx as [-> Hx]. split; [done|].
    by intros [? _]%Forall_cons.
Qed.

Lemma zeros_nonnegative sh : Np.nonnegative (Np.zeros 0%Z sh).
Proof.
  unfold Np.nonnegative. cbn. apply Forall_replicate, Forall_replicate. done.
Qed.

(** The ways the histogram statements of cell 27 can end. *)
Lemma histograms_outcome (dg : DriftingGratings) :
  let osi_rows := Pd.getitem_mask (peak dg) (Cell27.osi_cells dg) in
  let dsi_rows := Pd.getitem_mask (peak dg) (Cell27.dsi_cells dg) in
  match Cell27.histograms dg with
  | Ok (os, ds) =>
      tfvals dg ≠ []
      ∧ Forall (Cell27.addressable dg) osi_rows
      ∧ Forall (Cell27.addressable dg) dsi_rows
      ∧ Np.shape os = (length (orivals dg), length (tfvals dg) - 1)
      ∧ Np.shape ds = (length (orivals dg), length (tfvals dg) - 1)
      ∧ Np.wf os ∧ Np.wf ds
      ∧ Np.nonnegative os ∧ Np.nonnegative ds
      ∧ Np.sum os = Z.of_nat (length osi_rows)
      ∧ Np.sum ds = Z.of_nat (length dsi_rows)
  | Raised ValueError => tfvals dg = []
  | Raised (IndexError why) =>
      why = OutOfBounds ∧ tfvals dg ≠ []
      ∧ ¬ (Forall (Cell27.addressable dg) osi_rows
           ∧ Forall (Cell27.addressable dg) dsi_rows)
  end.
Proof.
  intros osi_rows dsi_rows.
  unfold Cell27.histograms, Cell27.fill, Pd.iterrows. fold osi_rows dsi_rows.
  unfold Cell27.empty_hist, Np.zeros_Z, Py.len.
  destruct (tfvals dg) as [|tf tfs] eqn:Htf.
  { rewrite decide_False by (cbn; lia). done. }
  rewrite decide_True by (cbn [length]; lia). cbn [mbind result_bind].
  set (sh := (Z.to_nat (Z.of_nat (length (orivals dg))),
              Z.to_nat (Z.of_nat (length (tf :: tfs)) - 1))).
  assert (sh = (length (orivals dg), length (tf :: tfs) - 1)) as Hsh.
  { unfold sh. f_equal; cbn [length]; lia. }
  assert (∀ rows,
    Forall (λ x, (- Z.of_nat (Np.shape (Np.zeros 0%Z sh)).1 ≤ Peak.ori_dg x.2
                    < Z.of_nat (Np.shape (Np.zeros 0%Z sh)).1)%Z
               ∧ (- Z.of_nat (Np.shape (Np.zeros 0%Z sh)).2
                    ≤ Peak.tf_dg x.2 - 1
                    < Z.of_nat (Np.shape (Np.zeros 0%Z sh)).2)%Z) rows
    ↔ Forall (Cell27.addressable dg) rows) as Hfits.
  { intros rows. apply Forall_proper; [|done]. intros x.
    unfold Cell27.addressable, Py.len. rewrite Htf, Hsh. cbn [length fst snd Np.shape Np.zeros].
    lia. }
  pose proof (fill_outcome osi_rows (Np.zeros 0%Z sh) (zeros_wf _ _)) as Ho.
  pose proof (fill_outcome dsi_rows (Np.zeros 0%Z sh) (zeros_wf _ _)) as Hd.
  destruct (for_each Cell27.body osi_rows _) as [os|e]; cbn [mbind result_bind].
  - destruct Ho as (Hwfo & Hsho & Hsumo & Hnno & Hrowso%Hfits).
    destruct (for_each Cell27.body dsi_rows _) as [ds|e]; cbn [mbind result_bind].
    + destruct Hd as (Hwfd & Hshd & Hsumd & Hnnd & Hrowsd%Hfits).
      rewrite sum_zeros in Hsumo, Hsumd.
      cbn in Hsho, Hshd. rewrite Hsh in Hsho, Hshd.
      split_and!; try done; try lia.
      * apply Hnno, zeros_nonnegative.
      * apply Hnnd, zeros_nonnegative.
    + destruct Hd as [-> Hd]. rewrite Hfits in Hd.
      split_and!; [done | done | tauto].
  - destruct Ho as [-> Ho]. rewrite Hfits in Ho.
    split_and!; [done | done | tauto].
Qed.

Lemma nonnegative_get (a : Np.ndarray Z) i j v :
  Np.nonnegative a → Np.get a i j = Some v → (0 ≤ v)%Z.
Proof.
  unfold Np.nonnegative, Np.get. intros Hnn Hget.
  destruct (Np.rows a !! i) as [r|] eqn:Hr; [|done]. cbn in Hget.
  rewrite Forall_lookup in Hnn. specialize (Hnn _ _ Hr).
  rewrite Forall_lookup in Hnn. by apply (Hnn _ _ Hget).
Qed.

(** X12.  Cell 27 counts every row it visits, whatever the row's indices:
    whenever the two loops finish, [os] and [ds] have the shape
    [(len(orivals), len(tfvals)-1)], no bin is negative, and the bins of
    [os] (of [ds]) add up to the number of rows selected by [osi_cells] (by
    [dsi_cells]).  A row whose index is negative is counted too, in the bin
    the index wraps to. *)
Theorem histograms_count_every_visited_row
    (dg : DriftingGratings) (os ds : Np.ndarray Z) :
  Cell27.histograms dg = Ok (os, ds) →
  Np.shape os = (length (orivals dg), length (tfvals dg) - 1)
  ∧ Np.shape ds = (length (orivals dg), length (tfvals dg) - 1)
  ∧ Np.sum os
    = Z.of_nat (length (Pd.getitem_mask (peak dg) (Cell27.osi_cells dg)))
  ∧ Np.sum ds
    = Z.of_nat (length (Pd.getitem_mask (peak dg) (Cell27.dsi_cells dg)))
  ∧ ∀ i j v, Np.get os i j = Some v ∨ Np.get ds i j = Some v → (0 ≤ v)%Z.
Proof.
  intros Hrun. pose proof (histograms_outcome dg) as H.
  cbv zeta in H. rewrite Hrun in H.
  destruct H as (_ & _ & _ & Hsho & Hshd & _ & _ & Hnno & Hnnd & Hso & Hsd).
  split_and!; [done..|].
  intros i j v [Hv|Hv]; [exact (nonnegative_get os i j v Hnno Hv)|].
  exact (nonnegative_get ds i j v Hnnd Hv).
Qed.

(** An analysis with one selective cell whose preferred temporal frequency
    is the blank sweep ([tf_dg = 0]): the loops finish and the cell is
    counted. *)
Lemma histograms_count_every_visited_row_witness :
  Cell27.histograms
    (mk_dg [(0%Z, Peak.mk 0.01 5 1 1 0 0)] [0; 45]%Z [0; 1; 2]%Z)
  = Ok (Np.mk_ndarray (2, 2) [[0; 1]; [0; 0]]%Z,
        Np.mk_ndarray (2, 2) [[0; 1]; [0; 0]]%Z)
  ∧ Np.sum (Np.mk_ndarray (2, 2) [[0; 1]; [0; 0]]%Z) = 1%Z.
Proof.
  assert (Cell27.histograms
            (mk_dg [(0%Z, Peak.mk 0.01 5 1 1 0 0)] [0; 45]%Z [0; 1; 2]%Z)
          = Ok (Np.mk_ndarray (2, 2) [[0; 1]; [0; 0]]%Z,
                Np.mk_ndarray (2, 2) [[0; 1]; [0; 0]]%Z)) as Hrun
    by reflexivity.
  split; [exact Hrun|].
  exact (proj1 (proj2 (proj2
    (histograms_count_every_visited_row _ _ _ Hrun)))).
Defined.

(** X13.  The three ways the histogram statements of cell 27 end.  They
    finish exactly when [dg.tfvals] is not empty and each selected row has
    both indices, [ori_dg] and [tf_dg-1], inside the array or negative and
    within its length from the end.  With an empty [dg.tfvals],
    [np.zeros] is asked for a negative dimension and raises [ValueError].
    Otherwise a row with an index outside the array raises [IndexError]. *)
Theorem histograms_end_in_three_ways (dg : DriftingGratings) :
  let osi_rows := Pd.getitem_mask (peak dg) (Cell27.osi_cells dg) in
  let dsi_rows := Pd.getitem_mask (peak dg) (Cell27.dsi_cells dg) in
  let all_addressable :=
    Forall (Cell27.addressable dg) osi_rows
    ∧ Forall (Cell27.addressable dg) dsi_rows in
  ((∃ os ds, Cell27.histograms dg = Ok (os, ds)) ↔
     tfvals dg ≠ [] ∧ all_addressable)
  ∧ (Cell27.histograms dg = Raised ValueError ↔ tfvals dg = [])
  ∧ (Cell27.histograms dg = Raised (IndexError OutOfBounds) ↔
       tfvals dg ≠ [] ∧ ¬ all_addressable)
  ∧ ∀ e, Cell27.histograms dg = Raised e →
         e = ValueError ∨ e = IndexError OutOfBounds.
Proof.
  intros osi_rows dsi_rows all_addressable.
  pose proof (histograms_outcome dg) as H. cbv zeta in H.
  fold osi_rows dsi_rows in H. unfold all_addressable.
  destruct (Cell27.histograms dg) as [[os ds]|[why|]].
  - destruct H as (Htf & Ho & Hd & _). split_and!.
    + split; [done | eauto].
    + split; [done | congruence].
    + split; [done | tauto].
    + done.
  - destruct H as (-> & Htf & Hrows). split_and!.
    + split; [by intros (? & ? & ?) | tauto].
    + split; [done | congruence].
    + done.
    + intros e [= <-]. by right.
  - split_and!.
    + split; [by intros (? & ? & ?) | tauto].
    + done.
    + split; [done | tauto].
    + intros e [= <-]. by left.
Qed.

(** X14.  Cell 27 does not leave out the blank sweep.  For a row with
    [tf_dg = 0] the column index [trial.tf_dg-1] is [-1], which numpy
    reads as the last column: the statement adds one to the bin of the
    row's orientation and the highest temporal frequency, and changes
    no other bin. *)
Theorem blank_sweep_row_counts_in_last_column
    (hist : Np.ndarray Z) (row : Z * Peak.t) :
  Np.wf hist → 0 < (Np.shape hist).2 →
  Peak.tf_dg row.2 = 0%Z →
  (0 ≤ Peak.ori_dg row.2 < Z.of_nat (Np.shape hist).1)%Z →
  ∃ h, Cell27.body hist row = Ok h
    ∧ ∀ i j, Np.get h i j =
        if bool_decide (Z.of_nat i = Peak.ori_dg row.2
                        ∧ j = (Np.shape hist).2 - 1)
        then Z.add 1 <$> Np.get hist i j else Np.get hist i j.
Proof.
  intros Hwf Hcols Htf Hori. unfold Cell27.body. cbn zeta. rewrite Htf.
  assert (Np.axis_index (Np.shape hist).1 (Peak.ori_dg row.2)
          = Ok (Z.to_nat (Peak.ori_dg row.2))) as H1.
  { unfold Np.axis_index. by rewrite decide_True. }
  assert (Np.axis_index (Np.shape hist).2 (0 - 1)
          = Ok ((Np.shape hist).2 - 1)) as H2.
  { unfold Np.axis_index. rewrite decide_False, decide_True by lia.
    f_equal. lia. }
  rewrite (iadd_at_wraps hist _ _ 1 _ _ H1 H2).
  destruct (iadd_at_spec hist (Z.of_nat (Z.to_nat (Peak.ori_dg row.2)))
              (Z.of_nat ((Np.shape hist).2 - 1)) 1)
    as (h & Hh & _ & _ & _ & Hget); [done | lia | lia |].
  exists h. split; [done|]. intros i j. rewrite Hget.
  apply (f_equal (λ b : bool, if b then _ else _)).
  apply bool_decide_ext. lia.
Qed.

(** A histogram with two orientations and three temporal frequencies: the
    blank-sweep row of orientation 1 lands in the last column. *)
Lemma blank_sweep_row_counts_in_last_column_witness :
  ∃ h, Cell27.body (Np.zeros 0%Z (2, 3)) (0%Z, Peak.mk 0 0 0 0 1 0) = Ok h
       ∧ Np.get h 1 2 = Some 1%Z ∧ Np.get h 1 0 = Some 0%Z.
Proof.
  destruct (blank_sweep_row_counts_in_last_column
              (Np.zeros 0%Z (2, 3)) (0%Z, Peak.mk 0 0 0 0 1 0))
    as (h & Hh & Hget).
  - apply zeros_wf.
  - simpl. lia.
  - reflexivity.
  - simpl. lia.
  - exists h. split; [exact Hh|]. rewrite !Hget. split; reflexivity.
Defined.

(** ** Cell 27: the colour scale and the tick labels *)

Lemma elem_of_concat {A} (ls : list (list A)) v :
  v ∈ concat ls ↔ ∃ r, v ∈ r ∧ r ∈ ls.
Proof.
  induction ls as [|l ls IH]; cbn.
  { rewrite elem_of_nil. split; [done|]. by intros (? & _ & ?%elem_of_nil). }
  rewrite elem_of_app, IH. setoid_rewrite elem_of_cons. naive_solver.
Qed.

Lemma elem_of_concat_get {A} (a : Np.ndarray A) v :
  v ∈ concat (Np.rows a) ↔ ∃ i j, Np.get a i j = Some v.
Proof.
  unfold Np.get. rewrite elem_of_concat. split.
  - intros (r & Hv & Hr).
    apply list_elem_of_lookup in Hr as [i Hi].
    apply list_elem_of_lookup in Hv as [j Hj].
    exists i, j. by rewrite Hi.
  - intros (i & j & Hget).
    destruct (Np.rows a !! i) as [r|] eqn:Hr; [|done]. cbn in Hget.
    exists r. split; by eapply list_elem_of_lookup_2.
Qed.

Lemma foldr_max_spec (x : Z) (l : list Z) :
  foldr Z.max x l ∈ x :: l ∧ ∀ v, v ∈ x :: l → (v ≤ foldr Z.max x l)%Z.
Proof.
  induction l as [|y l [IHin IHle]]; cbn.
  { split; [apply list_elem_of_here|]. by intros v ->%list_elem_of_singleton. }
  split.
  - destruct (Z.max_spec y (foldr Z.max x l)) as [[_ ->]|[_ ->]].
    + apply elem_of_cons in IHin as [->|?]; set_solver.
    + set_solver.
  - intros v Hv. assert (v = y ∨ v ∈ x :: l) as [->|Hv'] by set_solver.
    + lia.
    + specialize (IHle v Hv'). lia.
Qed.

(** [a.max()]: the largest entry; a [ValueError] exactly for an array
    without entries. *)
Lemma amax_outcome (a : Np.ndarray Z) :
  Np.wf a →
  match Np.amax a with
  | Ok m =>
      0 < (Np.shape a).1 ∧ 0 < (Np.shape a).2
      ∧ (∃ i j, Np.get a i j = Some m)
      ∧ ∀ i j v, Np.get a i j = Some v → (v ≤ m)%Z
  | Raised e => e = ValueError ∧ ((Np.shape a).1 = 0 ∨ (Np.shape a).2 = 0)
  end.
Proof.
  intros [Hlen Hrows]. unfold Np.amax.
  destruct (concat (Np.rows a)) as [|x l] eqn:Hc.
  - split; [done|].
    destruct (Np.rows a) as [|r rows] eqn:Hr; [left; cbn in Hlen; lia|].
    right. apply Forall_cons in Hrows as [<- _].
    cbn in Hc. apply app_eq_nil in Hc as [-> _]. done.
  - destruct (foldr_max_spec x l) as [Hin Hle].
    rewrite <- Hc in Hin. apply elem_of_concat_get in Hin as (i & j & Hij).
    assert (i < (Np.shape a).1 ∧ j < (Np.shape a).2) as [Hi Hj].
    { unfold Np.get in Hij.
      destruct (Np.rows a !! i) as [r|] eqn:Hr; [|done]. cbn in Hij.
      rewrite Forall_lookup in Hrows.
      rewrite <- Hlen, <- (Hrows _ _ Hr).
      split; by eapply lookup_lt_Some. }
    split_and!; [lia | lia | eauto |].
    intros i' j' v Hv. apply Hle. rewrite <- Hc.
    apply elem_of_concat_get. eauto.
Qed.

(** X15.  Cell 27, [max_count = max(os.max(), ds.max())], after the loops
    have finished.  With at least one orientation and one temporal
    frequency beside the blank sweep, [max_count] is the largest bin of the
    two histograms: some bin holds it, no bin exceeds it, and it is not
    negative, so [clim=[0,max_count]] spans every bin.  With no orientation
    or with the blank sweep alone the histograms have no bin and [.max()]
    raises [ValueError]. *)
Theorem max_count_is_the_largest_bin
    (dg : DriftingGratings) (os ds : Np.ndarray Z) :
  Cell27.histograms dg = Ok (os, ds) →
  match Cell27.max_count os ds with
  | Ok max_count =>
      orivals dg ≠ [] ∧ 2 ≤ length (tfvals dg)
      ∧ (∃ i j, Np.get os i j = Some max_count
                ∨ Np.get ds i j = Some max_count)
      ∧ ∀ i j v, Np.get os i j = Some v ∨ Np.get ds i j = Some v →
                 (0 ≤ v ≤ max_count)%Z
  | Raised e => e = ValueError ∧ (orivals dg = [] ∨ length (tfvals dg) = 1)
  end.
Proof.
  intros Hrun. pose proof (histograms_outcome dg) as H.
  cbv zeta in H. rewrite Hrun in H.
  destruct H as (Htf & _ & _ & Hsho & Hshd & Hwfo & Hwfd & Hnno & Hnnd & _).
  assert (0 < length (tfvals dg)) as Hlen.
  { destruct (tfvals dg); [done | cbn; lia]. }
  pose proof (amax_outcome os Hwfo) as Ho.
  pose proof (amax_outcome ds Hwfd) as Hd.
  rewrite Hsho in Ho. rewrite Hshd in Hd. cbn [fst snd] in Ho, Hd.
  assert (∀ l : list Z, length l = 0 → l = []) as Hnil.
  { by intros []. }
  unfold Cell27.max_count.
  destruct (Np.amax os) as [a|e]; cbn.
  2:{ destruct Ho as [-> [Ho|Ho]]; (split; [done|]); [left; auto | right; lia]. }
  destruct (Np.amax ds) as [b|e]; cbn.
  2:{ destruct Hd as [-> [Hd|Hd]]; (split; [done|]); [left; auto | right; lia]. }
  destruct Ho as (Hn & Hm & (io & jo & Hao) & Hleo).
  destruct Hd as (_ & _ & (id & jd & Hbd) & Hled).
  split_and!.
  - intros Hori. rewrite Hori in Hn. cbn in Hn. lia.
  - lia.
  - destruct (Z.max_spec a b) as [[_ ->]|[_ ->]]; eauto.
  - intros i j v [Hv|Hv].
    + pose proof (nonnegative_get _ _ _ _ Hnno Hv).
      specialize (Hleo _ _ _ Hv). lia.
    + pose proof (nonnegative_get _ _ _ _ Hnnd Hv).
      specialize (Hled _ _ _ Hv). lia.
Qed.

(** The demo analysis: three orientations, three temporal frequencies beside
    the blank sweep; the largest bin holds two cells. *)
Lemma max_count_is_the_largest_bin_witness :
  Cell27.max_count
    (Np.mk_ndarray (3, 3) [[1; 0; 0]; [0; 2; 0]; [0; 0; 0]]%Z)
    (Np.mk_ndarray (3, 3) [[1; 0; 0]; [0; 1; 0]; [0; 0; 0]]%Z) = Ok 2%Z
  ∧ orivals Demo.dg ≠ [] ∧ 2 ≤ length (tfvals Demo.dg).
Proof.
  pose proof (max_count_is_the_largest_bin Demo.dg
    (Np.mk_ndarray (3, 3) [[1; 0; 0]; [0; 2; 0]; [0; 0; 0]]%Z)
    (Np.mk_ndarray (3, 3) [[1; 0; 0]; [0; 1; 0]; [0; 0; 0]]%Z)
    eq_refl) as H.
  change (Cell27.max_count _ _) with (Ok (A:=Z) 2%Z) in H.
  split; [reflexivity|].
  destruct H as (Hori & Htf & _). split; [exact Hori | exact Htf].
Defined.

(** X16.  Cell 27, the tick labels.  Whenever the loops finish, the x tick
    labels [dg.tfvals[1:]] are as many as the histograms have columns and
    the y tick labels [dg.orivals] as many as they have rows; the label of
    column [j] is [dg.tfvals[j+1]], so the blank-sweep entry
    [dg.tfvals[0]] labels no column. *)
Theorem tick_labels_fit_the_histograms
    (dg : DriftingGratings) (os ds : Np.ndarray Z) :
  Cell27.histograms dg = Ok (os, ds) →
  length (Py.slice_from1 (tfvals dg)) = (Np.shape os).2
  ∧ length (Py.slice_from1 (tfvals dg)) = (Np.shape ds).2
  ∧ length (orivals dg) = (Np.shape os).1
  ∧ length (orivals dg) = (Np.shape ds).1
  ∧ ∀ j, Py.slice_from1 (tfvals dg) !! j = tfvals dg !! (j + 1).
Proof.
  intros Hrun. pose proof (histograms_outcome dg) as H.
  cbv zeta in H. rewrite Hrun in H.
  destruct H as (_ & _ & _ & -> & -> & _).
  unfold Py.slice_from1. rewrite length_drop. cbn [fst snd].
  split_and!; [done..|].
  intros j. rewrite lookup_drop. f_equal. lia.
Qed.

Lemma tick_labels_fit_the_histograms_witness :
  Py.slice_from1 (tfvals Demo.dg) = [1; 2; 4]%Z
  ∧ length (Py.slice_from1 (tfvals Demo.dg)) = 3.
Proof.
  split; [reflexivity|].
  exact (proj1 (tick_labels_fit_the_histograms Demo.dg
    (Np.mk_ndarray (3, 3) [[1; 0; 0]; [0; 2; 0]; [0; 0; 0]]%Z)
    (Np.mk_ndarray (3, 3) [[1; 0; 0]; [0; 1; 0]; [0; 0; 0]]%Z) eq_refl)).
Defined.

(** ** Cell 29: traces of different lengths *)

(** X17.  Cell 29, [correction = raw_traces[0] - results['r'] *
    neuropil_traces[0]]: the statement succeeds exactly when the two traces
    have the same length or one of them has a single sample, which numpy
    then stretches over the other; any other pair of lengths raises
    [ValueError].  A neuropil trace of one sample is subtracted, times [r],
    from every sample of the raw trace. *)
Theorem correction_needs_matching_lengths
    (raw0 neuropil0 : list float) (r : float) :
  match Cell29.correction raw0 neuropil0 r with
  | Ok correction =>
      (length raw0 = length neuropil0
       ∨ length raw0 = 1 ∨ length neuropil0 = 1)
      ∧ length correction
        = (if decide (length raw0 = 1) then length neuropil0
           else length raw0)
      ∧ ∀ n, neuropil0 = [n] →
             correction
             = (λ x, PrimFloat.sub x (PrimFloat.mul r n)) <$> raw0
  | Raised e =>
      e = ValueError
      ∧ length raw0 ≠ length neuropil0
      ∧ length raw0 ≠ 1 ∧ length neuropil0 ≠ 1
  end.
Proof.
  unfold Cell29.correction, Np.sub, Np.scalar_mul, Np.broadcast2.
  rewrite length_fmap. case_decide as Hlen.
  - split_and!; [by left | |].
    + rewrite length_zip_with, length_fmap. case_decide; lia.
    + intros n ->. destruct raw0 as [|x [|? ?]]; cbn in *; [done|reflexivity|done].
  - destruct raw0 as [|x [|x' raw]].
    + destruct neuropil0 as [|n [|n' neu]]; cbn in *; [done | | ].
      * split_and!; [by right; right | done |]. by intros ? [= <-].
      * split_and!; [done | lia | lia | lia].
    + split_and!; [by right; left | cbn; by rewrite !length_fmap |].
      intros n ->. done.
    + destruct neuropil0 as [|n [|n' neu]]; cbn in *.
      * split_and!; [done | lia..].
      * split_and!; [by right; right | rewrite ?length_fmap; case_decide; lia |].
        by intros ? [= <-].
      * split_and!; [done | lia..].
Qed.

(** ** The calls of a run *)

Lemma methods_app tr1 tr2 : methods (tr1 ++ tr2) = methods tr1 ++ methods tr2.
Proof. apply omap_app. Qed.

Lemma methods_nil_app tr1 tr2 :
  methods tr1 = [] → methods tr2 = [] → methods (tr1 ++ tr2) = [].
Proof. intros H1 H2. by rewrite methods_app, H1, H2. Qed.

Lemma notebook_calls_in_fixed_order :
  wp Notebook.notebook (λ r tr,
    methods tr `prefix_of` notebook_methods
    ∧ (r = Ok tt → methods tr = notebook_methods)).
Proof.
  unfold_notebook.
  wp_walk (λ tr, methods tr = []) (eq_refl (A:=list string) [])
    methods_nil_app.
  all: cbn [methods omap list_omap method].
  all: try match goal with
       | |- context [omap ?f (?a ++ ?b)] =>
           change (omap f (a ++ b)) with (methods (a ++ b))
       end.
  all: rewrite ?methods_app.
  all: try match goal with H : methods _ = [] |- _ => rewrite H end.
  all: cbn [methods omap list_omap method app].
  all: first [ reflexivity
             | split; [by eexists | first [done | by intros _]] ].
Qed.

(** X18.  The calls of the notebook do not depend on the data.  In every
    run, against any SDK and whatever it answers, the methods called are,
    in this order, the 38 calls of the code cells; a run that fails has
    made the calls up to the failing statement and none after it. *)
Theorem notebook_calls_do_not_depend_on_data {St} (h : handler St) (s : St) :
  let r := run h s Notebook.notebook in
  methods (trace r) `prefix_of` notebook_methods
  ∧ (outcome r = Ok tt → methods (trace r) = notebook_methods)
  ∧ length (methods (trace r)) ≤ 38.
Proof.
  intros r.
  destruct (wp_sound h _ _ s notebook_calls_in_fixed_order) as [Hpre Hok].
  fold r in Hpre, Hok. split_and!; [done | done |].
  apply prefix_length in Hpre. exact Hpre.
Qed.

Lemma uses_latest_quiet_app bound tr1 tr2 :
  methods tr1 = [] → uses_latest bound (tr1 ++ tr2) ↔ uses_latest bound tr2.
Proof.
  induction tr1 as [|e tr1 IH]; [done|].
  destruct e as [t c x|o|n]; cbn; [done | exact IH | exact IH].
Qed.

Lemma notebook_uses_latest_data_set :
  wp Notebook.notebook (λ _ tr, uses_latest None tr).
Proof.
  unfold_notebook.
  wp_walk (λ tr, methods tr = []) (eq_refl (A:=list string) [])
    methods_nil_app.
  all: try reflexivity.
  all: cbn [uses_latest receiver rebind].
  all: rewrite <- ?app_assoc.
  all: try (rewrite uses_latest_quiet_app by assumption;
            cbn [uses_latest receiver rebind app]).
  all: by repeat split.
Qed.

(** X19.  The notebook never calls a method of a stale data set.  In every
    run, against any SDK, each data-set method ([get_metadata],
    [list_stimuli], the four trace getters, [get_cell_specimen_ids],
    [get_roi_mask], [get_max_projection], [get_running_speed],
    [get_motion_correction]) and the [DriftingGratings] analysis is applied
    to the data set that the latest [get_ophys_experiment_data] before it
    returned; none is applied before the first such call. *)
Theorem notebook_methods_use_latest_data_set {St} (h : handler St) (s : St) :
  uses_latest None (trace (run h s Notebook.notebook)).
Proof. exact (wp_sound h _ _ s notebook_uses_latest_data_set). Qed.

(** A trace that is refused: a method of a data set that no call
    returned. *)
Example stale_data_set_is_refused (d : DataSet) metadata :
  ¬ uses_latest None [EvCall (get_metadata d) metadata].
Proof. by intros [? _]. Qed.

(** ** What a completed run tells about the answers of the SDK *)





